(** * SkillPath Navigator: the recommendation engine

    A shallow embedding of [ml/src/recommend.py] (class
    [RecommendationEngine]): the similarity ranker
    [content_based_recommendations], the exposed [recommend] operation and
    the greedy path builder [generate_learning_path], with the properties
    the specification states about them.

    Conventions.
    - A Python [int] is a [Z]; a similarity score (a finite float) is a
      rational [Q]: the ranker only compares, copies and thresholds scores.
    - A [pandas.DataFrame] of courses is the list of its rows; its index is
      the default [RangeIndex], so the label of a row is its position.
    - A Python [set] of skills is a [gset string].
    - A raised exception is the [Raise] branch of [result].
    - The library functions the engine calls ([SentenceTransformer.encode],
      [sklearn]'s [cosine_similarity], [numpy.argsort], the built-in [int])
      are Section variables, with the part of their documented contract a
      proof needs as a Section hypothesis; reference instances are given
      further down and used to run the engine on concrete inputs. *)

From Stdlib Require Import ZArith QArith Sorted Ascii.
From stdpp Require Import base gmap sets list strings sorting.

(** ** Python values and exceptions *)

Inductive exn := IndexError | ValueError.

Inductive result (A : Type) :=
  | Ok (a : A)
  | Raise (e : exn).
Arguments Ok {A} a.
Arguments Raise {A} e.

#[export] Instance result_ret : MRet result := fun A a => Ok a.
#[export] Instance result_bind : MBind result := fun A B f m =>
  match m with
  | Ok a => f a
  | Raise e => Raise e
  end.

(** A numpy row vector of floats. *)
Abbreviation embedding := (list Q).

(** Truth value of an [int] and of a [str]. *)
Definition truthy_int (n : Z) : bool := negb (n =? 0)%Z.
Definition truthy_str (s : string) : bool := negb (String.eqb s "").

(** [l[:k]]: a negative bound counts from the end. *)
Definition py_slice_to {A} (k : Z) (l : list A) : list A :=
  if (k <? 0)%Z then take (Z.to_nat (Z.of_nat (length l) + k)) l
  else take (Z.to_nat k) l.

(** [sep.join(l)]. *)
Definition py_join (sep : string) (l : list string) : string :=
  String.concat sep l.

(** [a > b] on scores. *)
Definition Qgt_bool (a b : Q) : bool := negb (Qle_bool a b).

(** ** Data model *)

(** A row of [courses_df]. *)
Module Course.
Record t := mk {
  id : Z;
  title : string;
  description : string;
  nsqf_level : Z;
  sector : string;
  duration_hours : Z;
  skills_covered : list string;
  prerequisites : list string
}.
End Course.

(** The [filters] dictionary; a key that is absent is [None]. *)
Module Filters.
Record t := mk {
  nsqf_level : option Z;
  sector : option string
}.
End Filters.

(** An element of the list [content_based_recommendations] returns; the
    key "explanation" is absent ([None]) once [recommend] has popped it. *)
Module Item.
Record t := mk {
  course_id : Z;
  relevance_score : Q;
  explanation : option string
}.
End Item.

(** An element of "path_nodes". *)
Module Node.
Record t := mk {
  course_id : Z;
  sequence_order : Z;
  estimated_completion_weeks : Z;
  prerequisites_met : bool
}.
End Node.

(** The [learner_data] dictionary; a key read with [.get(key, default)]
    and absent from the dictionary is held here as its default. *)
Record LearnerData := {
  prior_skills : list string;
  career_aspirations : list string;
  interests : list string;
  education_level : string;
  current_occupation : string
}.

(** The engine's loaded state: both fields stay [None] when
    [load_models] finds no artifact. *)
Record RecommendationEngine := {
  course_embeddings : option (list embedding);
  courses_df : option (list Course.t)
}.

(** The dictionary [recommend] returns. *)
Record Recommendations := {
  recommendations : list Item.t;
  model_version : string
}.

(** The dictionary [generate_learning_path] returns. *)
Record LearningPath := {
  path_nodes : list Node.t;
  total_duration_weeks : Z;
  target_nsqf_level : string
}.

(** ** Similarity ranker *)

(** [_generate_explanation(course, score)]. *)
Definition _generate_explanation (course : Course.t) (score : Q) : string :=
  let tier :=
    if Qgt_bool score 0.8 then "Highly aligned with your profile"
    else if Qgt_bool score 0.6 then "Good match for your skills and interests"
    else "Relevant to your career goals" in
  let reasons :=
    match Course.skills_covered course with
    | [] => [tier]
    | _ :: _ =>
        match take 3 (Course.skills_covered course) with
        | [] => [tier]
        | skills => [tier; "Covers: " +:+ py_join ", " skills]
        end
    end in
  py_join ". " reasons.

(** The two [continue] tests of the scan: the course is skipped when an
    active filter names another level or another sector. *)
Definition excluded (filters : option Filters.t) (course : Course.t) : bool :=
  match filters with
  | None => false
  | Some f =>
      match Filters.nsqf_level f, Filters.sector f with
      | None, None => false
      | _, _ =>
        match Filters.nsqf_level f with
        | Some lvl => truthy_int lvl && negb (Course.nsqf_level course =? lvl)%Z
        | None => false
        end
        ||
        match Filters.sector f with
        | Some s => truthy_str s && negb (String.eqb (Course.sector course) s)
        | None => false
        end
      end
  end.

Section Ranker.

(** [self.embedding_model.encode]. *)
Variable encode : string -> embedding.
(** Row 0 of [cosine_similarity([v], table)]. *)
Variable cosine_similarity : embedding -> list embedding -> result (list Q).
(** [np.argsort]: the indices that sort its argument. *)
Variable argsort : list Q -> list nat.

(** [compute_learner_profile_embedding]. *)
Definition compute_learner_profile_embedding (learner_data : LearnerData)
  : embedding :=
  let profile_text := py_join " " [
    py_join " " (prior_skills learner_data);
    py_join " " (career_aspirations learner_data);
    py_join " " (interests learner_data);
    education_level learner_data;
    current_occupation learner_data ] in
  encode profile_text.

(** [np.argsort(similarities)[::-1][:top_k * 2]]. *)
Definition top_indices (similarities : list Q) (top_k : Z) : list nat :=
  py_slice_to (top_k * 2) (reverse (argsort similarities)).

(** The [for idx in top_indices] loop, [recs] being [recommendations]. *)
Fixpoint scan (df : list Course.t) (similarities : list Q)
    (filters : option Filters.t) (top_k : Z)
    (idxs : list nat) (recs : list Item.t) : result (list Item.t) :=
  match idxs with
  | [] => Ok recs
  | idx :: rest =>
      if (Z.of_nat (length recs) >=? top_k)%Z then Ok recs
      else
        match df !! idx with
        | None => Raise IndexError
        | Some course =>
            if excluded filters course then
              scan df similarities filters top_k rest recs
            else
              match similarities !! idx with
              | None => Raise IndexError
              | Some score =>
                  scan df similarities filters top_k rest
                    (recs ++ [Item.mk (Course.id course) score
                                (Some (_generate_explanation course score))])
              end
        end
  end.

(** [content_based_recommendations]. *)
Definition content_based_recommendations (self : RecommendationEngine)
    (learner_embedding : embedding) (top_k : Z)
    (filters : option Filters.t) : result (list Item.t) :=
  match course_embeddings self, courses_df self with
  | Some table, Some df =>
      similarities ← cosine_similarity learner_embedding table;
      scan df similarities filters top_k
        (top_indices similarities top_k) []
  | _, _ => Ok []
  end.

(** [rec.pop("explanation", None)]. *)
Definition pop_explanation (rec : Item.t) : Item.t :=
  Item.mk (Item.course_id rec) (Item.relevance_score rec) None.

(** [recommend]: no [filters] argument is passed on. *)
Definition recommend (self : RecommendationEngine)
    (learner_data : LearnerData) (top_k : Z)
    (include_explanations : bool) : result Recommendations :=
  let learner_embedding := compute_learner_profile_embedding learner_data in
  recs ← content_based_recommendations self learner_embedding top_k None;
  let recs :=
    if negb include_explanations then pop_explanation <$> recs else recs in
  mret {| recommendations := recs; model_version := "1.0.0" |}.

End Ranker.


(** ** Path builder *)

(** [DataFrame.iterrows()] on a frame whose index is a [RangeIndex]
    starting at [start]: every row with its label. *)
Fixpoint iterrows_from (start : nat) (df : list Course.t)
  : list (nat * Course.t) :=
  match df with
  | [] => []
  | course :: rest => (start, course) :: iterrows_from (S start) rest
  end.

(** [set(course.get("prerequisites", [])).issubset(current_skills)]. *)
Definition eligible (current_skills : gset string) (course : Course.t) : bool :=
  bool_decide (list_to_set (Course.prerequisites course) ⊆ current_skills).

(** The inner [for idx, course in available_courses.iterrows()] loop. *)
Fixpoint eligible_loop (current_skills : gset string)
    (rows : list (nat * Course.t))
    (eligible_courses : list (nat * Course.t)) : list (nat * Course.t) :=
  match rows with
  | [] => eligible_courses
  | (idx, course) :: rest =>
      if eligible current_skills course then
        eligible_loop current_skills rest (eligible_courses ++ [(idx, course)])
      else eligible_loop current_skills rest eligible_courses
  end.

(** [available_courses.drop(best_idx)]: the rows labelled [best_idx] go. *)
Definition drop_label (best_idx : nat) (rows : list (nat * Course.t))
  : list (nat * Course.t) :=
  filter (λ row, row.1 ≠ best_idx) rows.

(** The variables the outer loop updates. *)
Record PathState := {
  st_current_skills : gset string;
  st_available_courses : list (nat * Course.t);
  st_path_nodes : list Node.t;
  st_sequence_order : Z;
  st_total_weeks : Z
}.

(** The body of the outer loop once [best_idx, best_course] is chosen. *)
Definition path_step (st : PathState) (best_idx : nat)
    (best_course : Course.t) : PathState :=
  let duration_weeks := (Course.duration_hours best_course `div` 10)%Z in
  {| st_current_skills :=
       st_current_skills st ∪ list_to_set (Course.skills_covered best_course);
     st_available_courses := drop_label best_idx (st_available_courses st);
     st_path_nodes :=
       st_path_nodes st ++
       [Node.mk (Course.id best_course) (st_sequence_order st)
                duration_weeks true];
     st_sequence_order := (st_sequence_order st + 1)%Z;
     st_total_weeks := (st_total_weeks st + duration_weeks)%Z |}.

(** [for _ in range(n)]: stop ([break]) when nothing is eligible, else take
    [eligible_courses[0]]. *)
Fixpoint path_loop (n : nat) (st : PathState) : PathState :=
  match n with
  | O => st
  | S n' =>
      match eligible_loop (st_current_skills st) (st_available_courses st) [] with
      | [] => st
      | (best_idx, best_course) :: _ =>
          path_loop n' (path_step st best_idx best_course)
      end
  end.

(** The variables as the outer loop finds them: an empty path, counter 1,
    no weeks. *)
Definition initial_state (current_skills : gset string)
    (available_courses : list (nat * Course.t)) : PathState :=
  {| st_current_skills := current_skills;
     st_available_courses := available_courses;
     st_path_nodes := [];
     st_sequence_order := 1;
     st_total_weeks := 0 |}.

(** [target_nsqf_level or "5"]. *)
Definition target_or_5 (target_level : option string) : string :=
  match target_level with
  | Some s => if truthy_str s then s else "5"
  | None => "5"
  end.

Section PathBuilder.

(** The built-in [int] applied to a [str]. *)
Variable int : string -> result Z.

(** The [if target_nsqf_level:] selection of rows, on a frame that has
    its [nsqf_level] column (every frame made of at least one record). *)
Definition select_level (target_level : option string)
    (available_courses : list (nat * Course.t))
  : result (list (nat * Course.t)) :=
  match target_level with
  | Some s =>
      if truthy_str s then
        lvl ← int s;
        mret (filter (λ row, (Course.nsqf_level row.2 ≤ lvl)%Z) available_courses)
      else mret available_courses
  | None => mret available_courses
  end.

(** [generate_learning_path]; [career_goal] is not read. *)
Definition generate_learning_path (self : RecommendationEngine)
    (learner_data : LearnerData) (career_goal : string)
    (target_level : option string) : result LearningPath :=
  let current_skills : gset string :=
    list_to_set (prior_skills learner_data) in
  match courses_df self with
  | None =>
      Ok {| path_nodes := []; total_duration_weeks := 0;
            target_nsqf_level := target_or_5 target_level |}
  | Some df =>
      available_courses ← select_level target_level (iterrows_from 0 df);
      let st := path_loop (Nat.min 5 (length available_courses))
        (initial_state current_skills available_courses) in
      mret {| path_nodes := st_path_nodes st;
              total_duration_weeks := st_total_weeks st;
              target_nsqf_level := target_or_5 target_level |}
  end.

End PathBuilder.

(** ** Reference instances of the library functions

    Used to run the engine on concrete inputs; the general theorems below
    do not depend on them. *)

Definition dot (u v : embedding) : Q :=
  foldr Qplus 0%Q (zip_with Qmult u v).

(** Square root, exact on the squares of rationals. *)
Definition Qsqrt (q : Q) : Q :=
  let r := Qred q in (Z.sqrt (Qnum r) # Pos.sqrt (Qden r))%Q.

(** [sklearn.preprocessing.normalize]: a zero norm is replaced by 1. *)
Definition l2_normalize (u : embedding) : embedding :=
  let n := Qsqrt (dot u u) in
  let n := if Qeq_bool n 0 then 1%Q else n in
  (λ x, Qred (x / n)) <$> u.

(** [cosine_similarity([v], table)[0]] of [sklearn.metrics.pairwise]: the
    table must have a row and every row the width of [v], else
    [ValueError]; each entry is the dot product of the normalized rows.
    Exact where the norms are rational, as [Qsqrt] is. *)
Definition cosine_similarity_ref (v : embedding) (table : list embedding)
  : result (list Q) :=
  match v, table with
  | [], _ | _, [] => Raise ValueError
  | _, _ =>
      if forallb (λ row, length row =? length v) table then
        Ok ((λ row, Qred (dot (l2_normalize v) (l2_normalize row))) <$> table)
      else Raise ValueError
  end.

(** The sort key of index [i] in [a]. *)
Definition key (a : list Q) (i : nat) : Q := nth i a 0%Q.

(** Insertion of index [i] after the indices whose key is not larger. *)
Fixpoint insert_index (a : list Q) (i : nat) (sorted : list nat) : list nat :=
  match sorted with
  | [] => [i]
  | j :: rest =>
      if Qle_bool (key a j) (key a i) then j :: insert_index a i rest
      else i :: j :: rest
  end.

(** One [argsort] that meets the contract of [np.argsort]: insertion sort
    of the indices, equal keys keeping their index order. numpy's default
    sort is not stable, so its order of equal keys may be another one; the
    theorems hold for every [argsort] that meets the contract. *)
Definition argsort_stable (a : list Q) : list nat :=
  foldl (λ sorted i, insert_index a i sorted) [] (seq 0 (length a)).

(** A stand-in sentence embedder: one fixed unit vector. *)
Definition encode_unit (profile_text : string) : embedding := [1%Q; 0%Q].

(** Value of a string of decimal digits. *)
Fixpoint digits_value (s : string) (acc : Z) : option Z :=
  match s with
  | EmptyString => Some acc
  | String c s' =>
      let n := Z.of_N (Ascii.N_of_ascii c) in
      if ((48 <=? n) && (n <=? 57))%Z
      then digits_value s' (10 * acc + (n - 48))%Z
      else None
  end.

(** [int(s)] on a plain decimal literal with an optional sign; any other
    string raises [ValueError] in this instance, also the ones [int]
    accepts with surrounding white space or underscores between digits. *)
Definition int_decimal (s : string) : result Z :=
  let parse digits :=
    match digits with
    | EmptyString => None
    | _ => digits_value digits 0
    end in
  let signed :=
    match s with
    | String "-"%char s' => Z.opp <$> parse s'
    | String "+"%char s' => parse s'
    | _ => parse s
    end in
  match signed with
  | Some n => Ok n
  | None => Raise ValueError
  end.

(** ** Properties stated about the ranker *)

(** The rows of the loaded catalog (none when nothing is loaded). *)
Definition catalog (self : RecommendationEngine) : list Course.t :=
  default [] (courses_df self).

(** Non-increasing [relevance_score] along the list. *)
Definition sorted_by_score (recs : list Item.t) : Prop :=
  StronglySorted
    (λ x y, (Item.relevance_score y <= Item.relevance_score x)%Q) recs.

(** Among items of equal score the smaller [course_id] comes first. *)
Definition ties_by_course_id (recs : list Item.t) : Prop :=
  ∀ i j x y, i < j → recs !! i = Some x → recs !! j = Some y →
    (Item.relevance_score x == Item.relevance_score y)%Q →
    (Item.course_id x < Item.course_id y)%Z.

(** The course agrees with every active filter: a filter is active when
    its key is present with a true value (a non-zero level, a non-empty
    sector). *)
Definition respects (filters : option Filters.t) (course : Course.t) : Prop :=
  ∀ f, filters = Some f →
    (∀ lvl, Filters.nsqf_level f = Some lvl → lvl ≠ 0%Z →
       Course.nsqf_level course = lvl) ∧
    (∀ s, Filters.sector f = Some s → s ≠ "" → Course.sector course = s).

(** Candidate [idx] names a row of [df] that no active filter excludes. *)
Definition qualifies (df : list Course.t) (filters : option Filters.t)
    (idx : nat) : bool :=
  match df !! idx with
  | Some course => negb (excluded filters course)
  | None => false
  end.

(** The item the scan appends for candidate [idx]. *)
Definition built_from (df : list Course.t) (similarities : list Q)
    (filters : option Filters.t) (idx : nat) (item : Item.t) : Prop :=
  ∃ course score,
    df !! idx = Some course ∧ similarities !! idx = Some score ∧
    excluded filters course = false ∧
    item = Item.mk (Course.id course) score
             (Some (_generate_explanation course score)).

(** Number of rows of [df] that no active filter excludes. *)
Definition count_satisfying (filters : option Filters.t)
    (df : list Course.t) : nat :=
  length (filter (λ course, excluded filters course = false) df).

(** ** A small catalog to run the engine on *)

Definition first_aid : Course.t :=
  Course.mk 1 "First Aid" "Emergency care" 3 "Health" 40 ["First Aid"] [].
Definition nursing : Course.t :=
  Course.mk 2 "Nursing" "Patient care" 4 "Health" 60
    ["Nursing"] ["First Aid"].
Definition python : Course.t :=
  Course.mk 3 "Python" "Programming" 4 "IT" 40 ["Python"] [].
Definition networks : Course.t :=
  Course.mk 4 "Networks" "Routing" 5 "IT" 25 ["Networking"] ["Python"].

(** Four courses; against the learner vector (1, 0) the rows of the table
    have cosine 1, 1, 3/5 and -1. *)
Definition demo_engine : RecommendationEngine :=
  {| course_embeddings :=
       Some [[1; 0]; [1; 0]; [3; 4]; [-1; 0]]%Q;
     courses_df := Some [first_aid; nursing; python; networks] |}.

Definition demo_vector : embedding := [1; 0]%Q.

Definition it_only : option Filters.t :=
  Some (Filters.mk None (Some "IT")).

Definition demo_learner : LearnerData :=
  {| prior_skills := []; career_aspirations := ["Developer"];
     interests := ["Programming"]; education_level := "graduate";
     current_occupation := "" |}.

(** What the ranker returns on the demo catalog: all four courses, and
    the IT courses only. *)
Definition demo_all_recommendations : list Item.t :=
  [ Item.mk 2 1%Q
      (Some "Highly aligned with your profile. Covers: Nursing");
    Item.mk 1 1%Q
      (Some "Highly aligned with your profile. Covers: First Aid");
    Item.mk 3 (3 # 5)%Q
      (Some "Relevant to your career goals. Covers: Python");
    Item.mk 4 (-1)%Q
      (Some "Relevant to your career goals. Covers: Networking") ].

Definition demo_it_recommendations : list Item.t :=
  [ Item.mk 3 (3 # 5)%Q
      (Some "Relevant to your career goals. Covers: Python");
    Item.mk 4 (-1)%Q
      (Some "Relevant to your career goals. Covers: Networking") ].

(** ** Properties stated about the path builder *)

(** The skills acquired once [courses] are taken, from [initial]. *)
Definition acquired (initial : gset string) (courses : list Course.t)
  : gset string :=
  initial ∪ ⋃ ((λ course, list_to_set (Course.skills_covered course)) <$> courses).

(** The rows the outer loop chooses, in the order it chooses them. *)
Fixpoint path_picks (n : nat) (st : PathState) : list (nat * Course.t) :=
  match n with
  | O => []
  | S n' =>
      match eligible_loop (st_current_skills st) (st_available_courses st) [] with
      | [] => []
      | (best_idx, best_course) :: _ =>
          (best_idx, best_course)
          :: path_picks n' (path_step st best_idx best_course)
      end
  end.

(** The node emitted for [course] when the counter is [order]. *)
Definition node_of (order : Z) (course : Course.t) : Node.t :=
  Node.mk (Course.id course) order
    (Course.duration_hours course `div` 10)%Z true.

(** The nodes emitted for [courses], the counter starting at [order]. *)
Fixpoint nodes_of (order : Z) (courses : list Course.t) : list Node.t :=
  match courses with
  | [] => []
  | course :: rest => node_of order course :: nodes_of (order + 1) rest
  end.

(** A catalog in which a course comes before its prerequisite. *)
Definition shuffled_engine : RecommendationEngine :=
  {| course_embeddings := None;
     courses_df := Some [nursing; first_aid; networks; python] |}.

Definition beginner : LearnerData :=
  {| prior_skills := []; career_aspirations := []; interests := [];
     education_level := "graduate"; current_occupation := "" |}.

(** The path built for the beginner on the shuffled catalog. *)
Definition shuffled_path : LearningPath :=
  {| path_nodes :=
       [ Node.mk 1 1 4 true; Node.mk 2 2 6 true;
         Node.mk 3 3 4 true; Node.mk 4 4 2 true ];
     total_duration_weeks := 16;
     target_nsqf_level := "5" |}.

(** The two scenarios of the specification: a catalog of two courses, the
    second requiring the skill the first covers; and a catalog with one IT
    course ranked below three health courses. *)
Definition scenario_path_engine : RecommendationEngine :=
  {| course_embeddings := None;
     courses_df :=
       Some [ Course.mk 1 "First" "" 1 "IT" 40 ["A"] [];
              Course.mk 2 "Second" "" 1 "IT" 20 ["B"] ["A"] ] |}.

Definition anatomy : Course.t :=
  Course.mk 5 "Anatomy" "Human body" 4 "Health" 30 ["Anatomy"] [].

Definition scenario_rank_engine : RecommendationEngine :=
  {| course_embeddings := Some [[1; 0]; [4; 3]; [3; 4]; [0; 1]]%Q;
     courses_df := Some [first_aid; nursing; anatomy; python] |}.

(** A [filters] dictionary none of whose values is true: each key is
    absent or holds 0 or the empty string. *)
Definition inactive (f : Filters.t) : Prop :=
  (Filters.nsqf_level f = None ∨ Filters.nsqf_level f = Some 0%Z) ∧
  (Filters.sector f = None ∨ Filters.sector f = Some "").

(** ** Skill normalisation and the model artifact *)

Section Normalize.

(** [str.lower] and [str.strip]. *)
Variable lower : string → string.
Variable strip : string → string.

(** The loop of [normalize_skills], [normalized] being its accumulator. *)
Fixpoint normalize_loop (skill_synonyms : gmap string string)
    (skills normalized : list string) : list string :=
  match skills with
  | [] => normalized
  | skill :: rest =>
      let skill_lower := strip (lower skill) in
      normalize_loop skill_synonyms rest
        (normalized ++ [default skill (skill_synonyms !! skill_lower)])
  end.

(** [normalize_skills], on the table [self.skill_synonyms]. *)
Definition normalize_skills (skill_synonyms : gmap string string)
    (skills : list string) : list string :=
  normalize_loop skill_synonyms skills [].

End Normalize.

(** [str.lower] and [str.strip] on ASCII strings. *)
Definition lower_ascii (c : ascii) : ascii :=
  let n := N_of_ascii c in
  if ((65 <=? n) && (n <=? 90))%N then ascii_of_N (n + 32) else c.

Fixpoint lower_ref (s : string) : string :=
  match s with
  | EmptyString => EmptyString
  | String c s' => String (lower_ascii c) (lower_ref s')
  end.

Definition is_space (c : ascii) : bool :=
  let n := N_of_ascii c in
  (((9 <=? n) && (n <=? 13)) || ((28 <=? n) && (n <=? 32)))%N.

Fixpoint lstrip_ref (s : string) : string :=
  match s with
  | EmptyString => EmptyString
  | String c s' => if is_space c then lstrip_ref s' else s
  end.

Fixpoint rstrip_ref (s : string) : string :=
  match s with
  | EmptyString => EmptyString
  | String c s' =>
      match rstrip_ref s' with
      | EmptyString => if is_space c then EmptyString else String c EmptyString
      | rest => String c rest
      end
  end.

Definition strip_ref (s : string) : string := rstrip_ref (lstrip_ref s).

(** The dictionary [joblib.load] returns; a key may be absent. *)
Record Pickle := {
  pk_embeddings : option (list embedding);
  pk_courses : option (list Course.t)
}.

(** What [load_models] finds at [courses_path]: no file, a file that
    [joblib.load] cannot read, or a dictionary. *)
Inductive artifact :=
  | NoFile
  | Unreadable
  | Stored (data : Pickle).

(** [load_models], from the state [__init__] sets (both fields [None]):
    the first assignment that raises leaves the later field unset. *)
Definition load_models (file : artifact) : RecommendationEngine :=
  match file with
  | NoFile | Unreadable =>
      {| course_embeddings := None; courses_df := None |}
  | Stored data =>
      match pk_embeddings data with
      | None => {| course_embeddings := None; courses_df := None |}
      | Some table =>
          {| course_embeddings := Some table;
             courses_df := pk_courses data |}
      end
  end.

(** The text [create_dummy_course_embeddings] embeds for a course. *)
Definition course_text (course : Course.t) : string :=
  Course.title course +:+ " " +:+ Course.description course +:+ " " +:+
  py_join " " (Course.skills_covered course).

(** [create_dummy_course_embeddings]: the artifact it writes, [encode]
    giving one row per text. *)
Definition create_dummy_course_embeddings (encode : string → embedding)
    (courses_data : list Course.t) : artifact :=
  Stored {| pk_embeddings := Some ((λ course, encode (course_text course))
                                     <$> courses_data);
            pk_courses := Some courses_data |}.

(** The artifact holds both keys. *)
Definition complete (file : artifact) : Prop :=
  ∃ table df, file = Stored {| pk_embeddings := Some table;
                               pk_courses := Some df |}.

(** ** Skill matching ([ml_service.py], [/skill-match]) *)

(** The [required_skills] dictionary of [match_skills]. *)
Definition required_skills_by_role : gmap string (list string) :=
  list_to_map [
    ("Data Scientist",
       ["Python"; "Machine Learning"; "Statistics"; "SQL";
        "Data Visualization"]);
    ("Software Engineer",
       ["Programming"; "Data Structures"; "Algorithms"; "System Design"]);
    ("Web Developer", ["HTML"; "CSS"; "JavaScript"; "React"; "Node.js"]);
    ("Digital Marketer",
       ["SEO"; "Content Marketing"; "Social Media"; "Analytics"]) ].

(** [required_skills.get(target_role, [...])]. *)
Definition role_skills (target_role : string) : list string :=
  default ["Communication"; "Problem Solving"]
    (required_skills_by_role !! target_role).

(** The dictionary [match_skills] returns; the two lists made from sets
    are held as the sets, their order being that of the set. *)
Record SkillMatch := {
  match_score : Q;
  matched_skills : gset string;
  missing_skills : gset string;
  required_skills : list string
}.

(** [len(matched) / len(role_skills) if role_skills else 0]. *)
Definition score_of (matched : gset string) (role_skills : list string) : Q :=
  match role_skills with
  | [] => 0%Q
  | _ :: rest => (Z.of_nat (size matched) # Pos.of_succ_nat (length rest))%Q
  end.

(** [match_skills]. *)
Definition match_skills (learner_skills : list string)
    (target_role : string) : SkillMatch :=
  let role_skills := role_skills target_role in
  let matched : gset string :=
    list_to_set learner_skills ∩ list_to_set role_skills in
  let missing : gset string :=
    list_to_set role_skills ∖ list_to_set learner_skills in
  {| match_score := score_of matched role_skills;
     matched_skills := matched;
     missing_skills := missing;
     required_skills := role_skills |}.

(** ** The backend routes ([backend/app/routes/ml.py]) *)

(** A row of the [courses] table ([CourseDB]). *)
Module CourseDB.
Record t := mk {
  id : Z;
  title : string;
  nsqf_level : string;
  sector : string;
  duration_hours : Z;
  skills_covered : list string;
  is_active : bool
}.
End CourseDB.

(** How a route ends: a response body, an [HTTPException] it raises, a
    query parameter refused by its declared bounds, or an exception
    nothing handles. *)
Inductive http (A : Type) :=
  | Response (body : A)
  | HTTPException (status_code : Z) (detail : string)
  | RequestValidationError
  | Unhandled (e : exn).
Arguments Response {A} body.
Arguments HTTPException {A} status_code detail.
Arguments RequestValidationError {A}.
Arguments Unhandled {A} e.

(** The values of the enumeration [NSQFLevel]. *)
Definition nsqf_values : list string :=
  ["1"; "2"; "3"; "4"; "5"; "6"; "7"; "8"; "9"; "10"].

(** [NSQFLevel(value)]: the member of that value, or [ValueError]. *)
Definition NSQFLevel (value : string) : result string :=
  if bool_decide (value ∈ nsqf_values) then Ok value else Raise ValueError.

(** The backend's [RecommendationItem]. *)
Module RecItem.
Record t := mk {
  course_id : Z;
  course_title : string;
  nsqf_level : string;
  sector : string;
  relevance_score : Q;
  explanation : option string;
  estimated_duration_hours : Z;
  skills_to_gain : list string
}.
End RecItem.

(** The backend's [LearningPathNode]. *)
Module PathItem.
Record t := mk {
  course_id : Z;
  course_title : string;
  nsqf_level : string;
  sequence_order : Z;
  estimated_completion_weeks : Z;
  prerequisites_met : bool
}.
End PathItem.

(** [RecommendationItem(course_id=course.id, ...)]: the level is
    converted first, then the model checks 0 <= relevance_score <= 1; a
    validation error is a [ValueError]. *)
Definition RecommendationItem (course : CourseDB.t) (relevance_score : Q)
    (explanation : option string) : result RecItem.t :=
  level ← NSQFLevel (CourseDB.nsqf_level course);
  if Qle_bool 0 relevance_score && Qle_bool relevance_score 1 then
    Ok (RecItem.mk (CourseDB.id course) (CourseDB.title course) level
          (CourseDB.sector course) relevance_score explanation
          (CourseDB.duration_hours course) (CourseDB.skills_covered course))
  else Raise ValueError.

(** [LearningPathNode(course_id=course.id, ...)]. *)
Definition LearningPathNode (course : CourseDB.t) (sequence_order : Z)
    (estimated_completion_weeks : Z) (prerequisites_met : bool)
  : result PathItem.t :=
  level ← NSQFLevel (CourseDB.nsqf_level course);
  Ok (PathItem.mk (CourseDB.id course) (CourseDB.title course) level
        sequence_order estimated_completion_weeks prerequisites_met).

(** An element of "recommendations" in the answer of the ML service; a
    key read with [.get] may be absent. *)
Record MLRec := {
  rec_course_id : Z;
  rec_relevance_score : option Q;
  rec_explanation : option string
}.

(** The answer of the ML service to [/recommend]. *)
Record MLResponse := {
  ml_recommendations : list MLRec;
  ml_model_version : option string
}.

(** [RecommendationResponse], without its time stamp. *)
Record RecommendationResponse := {
  rr_learner_id : Z;
  rr_recommendations : list RecItem.t;
  rr_model_version : string
}.

(** [LearningPathResponse], without its time stamp. *)
Record LearningPathResponse := {
  lp_learner_id : Z;
  lp_path_nodes : list PathItem.t;
  lp_total_duration_weeks : Z;
  lp_target_nsqf_level : string;
  lp_career_goal : string
}.

(** [db.query(CourseDB).filter(CourseDB.is_active == True).limit(n)]. *)
Definition active_courses (courses : list CourseDB.t) (n : nat)
  : list CourseDB.t :=
  take n (filter (λ course, CourseDB.is_active course = true) courses).

(** [{course.id: course for course in
      db.query(CourseDB).filter(CourseDB.id.in_(course_ids)).all()}]. *)
Definition course_map_of (courses : list CourseDB.t) (course_ids : list Z)
  : gmap Z CourseDB.t :=
  foldl (λ m course, <[CourseDB.id course := course]> m) ∅
    (filter (λ course, CourseDB.id course ∈ course_ids) courses).

(** The loop of the fallback of [get_recommendations]. *)
Fixpoint fallback_loop (include_explanations : bool)
    (courses : list CourseDB.t) (recommendations : list RecItem.t)
  : result (list RecItem.t) :=
  match courses with
  | [] => Ok recommendations
  | course :: rest =>
      item ← RecommendationItem course 0.75
                (if include_explanations
                 then Some "Recommended based on your profile" else None);
      fallback_loop include_explanations rest (recommendations ++ [item])
  end.

(** The loop over the recommendations of the ML service. *)
Fixpoint merge_loop (course_map : gmap Z CourseDB.t)
    (include_explanations : bool) (recs : list MLRec)
    (recommendations : list RecItem.t) : result (list RecItem.t) :=
  match recs with
  | [] => Ok recommendations
  | rec :: rest =>
      match course_map !! rec_course_id rec with
      | None => merge_loop course_map include_explanations rest recommendations
      | Some course =>
          item ← RecommendationItem course
                    (default 0.5%Q (rec_relevance_score rec))
                    (if include_explanations then rec_explanation rec
                     else None);
          merge_loop course_map include_explanations rest
            (recommendations ++ [item])
      end
  end.

(** An exception nothing handles ends the route. *)
Definition respond {A} (r : result A) : http A :=
  match r with
  | Ok body => Response body
  | Raise e => Unhandled e
  end.

(** [get_recommendations]: [user] is the id of the row of the current
    user if there is one, [has_profile] whether that user has a learner
    profile, [ml] the answer of the ML service, [None] when the call
    raised [httpx.HTTPError]. *)
Definition get_recommendations (top_k : Z) (include_explanations : bool)
    (user : option Z) (has_profile : bool) (ml : option MLResponse)
    (courses : list CourseDB.t) : http RecommendationResponse :=
  if negb ((1 <=? top_k) && (top_k <=? 50))%Z then RequestValidationError
  else
    match user with
    | None => HTTPException 404 "User not found"
    | Some user_id =>
        if negb has_profile then
          HTTPException 404
            "Learner profile not found. Please complete your profile first."
        else
          match ml with
          | None =>
              respond (
                recommendations ←
                  fallback_loop include_explanations
                    (active_courses courses (Z.to_nat top_k)) [];
                Ok {| rr_learner_id := user_id;
                      rr_recommendations := recommendations;
                      rr_model_version := "1.0.0-fallback" |})
          | Some answer =>
              let recs := ml_recommendations answer in
              let course_ids := rec_course_id <$> recs in
              let course_map := course_map_of courses course_ids in
              respond (
                recommendations ←
                  merge_loop course_map include_explanations recs [];
                Ok {| rr_learner_id := user_id;
                      rr_recommendations := recommendations;
                      rr_model_version :=
                        default "1.0.0" (ml_model_version answer) |})
          end
    end.

(** The loop of the fallback of [get_learning_path], over
    [enumerate(courses)] from [idx]. *)
Fixpoint fallback_path_loop (idx : Z) (courses : list CourseDB.t)
    (path_nodes : list PathItem.t) : result (list PathItem.t) :=
  match courses with
  | [] => Ok path_nodes
  | course :: rest =>
      node ← LearningPathNode course (idx + 1)
                (CourseDB.duration_hours course `div` 10)%Z true;
      fallback_path_loop (idx + 1) rest (path_nodes ++ [node])
  end.

(** An element of "path_nodes" in the answer of the ML service to
    [/learning-path]; a key read with [.get] may be absent. *)
Record MLNode := {
  node_course_id : Z;
  node_sequence_order : option Z;
  node_estimated_completion_weeks : option Z;
  node_prerequisites_met : option bool
}.

(** The answer of the ML service to [/learning-path]; an absent
    "path_nodes" reads as the empty list. *)
Record MLPath := {
  mp_path_nodes : list MLNode;
  mp_total_duration_weeks : option Z;
  mp_target_nsqf_level : option string
}.

(** The loop over the nodes of the ML service. *)
Fixpoint path_merge_loop (course_map : gmap Z CourseDB.t)
    (nodes : list MLNode) (path_nodes : list PathItem.t)
  : result (list PathItem.t) :=
  match nodes with
  | [] => Ok path_nodes
  | node :: rest =>
      match course_map !! node_course_id node with
      | None => path_merge_loop course_map rest path_nodes
      | Some course =>
          item ← LearningPathNode course
                    (default 0%Z (node_sequence_order node))
                    (default 4%Z (node_estimated_completion_weeks node))
                    (default true (node_prerequisites_met node));
          path_merge_loop course_map rest (path_nodes ++ [item])
      end
  end.

(** [sum(node.estimated_completion_weeks for node in path_nodes)]. *)
Definition sum_weeks (path_nodes : list PathItem.t) : Z :=
  foldl Z.add 0%Z (PathItem.estimated_completion_weeks <$> path_nodes).

(** An optional query parameter of type [NSQFLevel] is accepted when it
    is absent or the value of a member. *)
Definition valid_level (target_level : option string) : bool :=
  match target_level with
  | None => true
  | Some s => bool_decide (s ∈ nsqf_values)
  end.

(** [get_learning_path]: [target_level] is the query parameter
    [target_nsqf_level], [path_data] the answer of the ML service. *)
Definition get_learning_path (career_goal : string)
    (target_level : option string) (user : option Z) (has_profile : bool)
    (path_data : option MLPath) (courses : list CourseDB.t)
  : http LearningPathResponse :=
  if negb (valid_level target_level) then RequestValidationError
  else
    match user with
    | None => HTTPException 404 "User not found"
    | Some user_id =>
        if negb has_profile then HTTPException 404 "Learner profile not found"
        else
          match path_data with
          | None =>
              respond (
                path_nodes ← fallback_path_loop 0 (active_courses courses 5) [];
                Ok {| lp_learner_id := user_id;
                      lp_path_nodes := path_nodes;
                      lp_total_duration_weeks := sum_weeks path_nodes;
                      lp_target_nsqf_level := default "5" target_level;
                      lp_career_goal := career_goal |})
          | Some path_data =>
              let course_ids := node_course_id <$> mp_path_nodes path_data in
              let course_map := course_map_of courses course_ids in
              respond (
                nodes ← path_merge_loop course_map (mp_path_nodes path_data) [];
                level ← NSQFLevel
                          (default "5" (mp_target_nsqf_level path_data));
                Ok {| lp_learner_id := user_id;
                      lp_path_nodes := nodes;
                      lp_total_duration_weeks :=
                        default 0%Z (mp_total_duration_weeks path_data);
                      lp_target_nsqf_level := level;
                      lp_career_goal := career_goal |})
          end
    end.

(** The dictionary [analyze_skill_gap] builds ([SkillGapAnalysis]). *)
Record SkillGapAnalysis := {
  sg_learner_id : Z;
  sg_current_skills : list string;
  sg_target_role : string;
  sg_required_skills : list string;
  sg_skill_gaps : list string;
  sg_recommended_courses : list Z;
  sg_estimated_upskilling_weeks : Z
}.

(** [analyze_skill_gap]: [profile] is the [prior_skills] of the learner
    profile of the user, if there is one. *)
Definition analyze_skill_gap (target_role : string) (user : option Z)
    (profile : option (list string)) (courses : list CourseDB.t)
  : http SkillGapAnalysis :=
  match user with
  | None => HTTPException 404 "User not found"
  | Some user_id =>
      match profile with
      | None => HTTPException 404 "Learner profile not found"
      | Some prior_skills =>
          let required_skills :=
            ["Python"; "Data Analysis"; "Machine Learning"; "SQL";
             "Communication"] in
          let skill_gaps :=
            filter (λ skill, skill ∉ prior_skills) required_skills in
          Response
            {| sg_learner_id := user_id;
               sg_current_skills := prior_skills;
               sg_target_role := target_role;
               sg_required_skills := required_skills;
               sg_skill_gaps := skill_gaps;
               sg_recommended_courses :=
                 CourseDB.id <$> active_courses courses 3;
               sg_estimated_upskilling_weeks :=
                 (Z.of_nat (length skill_gaps) * 4)%Z |}
      end
  end.

(** What the ML service answers to [/recommend] when the engine returns
    [r]: its JSON, or nothing usable (status 500) when the engine
    raised. *)
Definition ml_answer (r : result Recommendations) : option MLResponse :=
  match r with
  | Ok body =>
      Some {| ml_recommendations :=
                (λ item, {| rec_course_id := Item.course_id item;
                            rec_relevance_score :=
                              Some (Item.relevance_score item);
                            rec_explanation := Item.explanation item |})
                  <$> recommendations body;
              ml_model_version := Some (model_version body) |}
  | Raise _ => None
  end.

(** What the ML service answers to [/learning-path] when the engine
    returns [r]. *)
Definition path_answer (r : result LearningPath) : option MLPath :=
  match r with
  | Ok body =>
      Some {| mp_path_nodes :=
                (λ node, {| node_course_id := Node.course_id node;
                            node_sequence_order :=
                              Some (Node.sequence_order node);
                            node_estimated_completion_weeks :=
                              Some (Node.estimated_completion_weeks node);
                            node_prerequisites_met :=
                              Some (Node.prerequisites_met node) |})
                  <$> path_nodes body;
              mp_total_duration_weeks := Some (total_duration_weeks body);
              mp_target_nsqf_level := Some (target_nsqf_level body) |}
  | Raise _ => None
  end.

(** A table of the backend for the demo catalog. *)
Definition demo_courses : list CourseDB.t :=
  [ CourseDB.mk 1 "First Aid" "3" "Health" 40 ["First Aid"] true;
    CourseDB.mk 2 "Nursing" "4" "Health" 60 ["Nursing"] true;
    CourseDB.mk 3 "Python" "4" "IT" 40 ["Python"] false;
    CourseDB.mk 4 "Networks" "5" "IT" 25 ["Networking"] true ].

(** Answers of the ML service to run the routes on: a course the table
    lacks and an absent score; a score outside [0, 1]. *)
Definition demo_answer : MLResponse :=
  {| ml_recommendations :=
       [ {| rec_course_id := 2; rec_relevance_score := Some 1%Q;
            rec_explanation := Some "a" |};
         {| rec_course_id := 9; rec_relevance_score := Some 1%Q;
            rec_explanation := None |};
         {| rec_course_id := 3; rec_relevance_score := None;
            rec_explanation := Some "b" |} ];
     ml_model_version := None |}.

Definition demo_response : RecommendationResponse :=
  {| rr_learner_id := 7;
     rr_recommendations :=
       [ RecItem.mk 2 "Nursing" "4" "Health" 1%Q (Some "a") 60 ["Nursing"];
         RecItem.mk 3 "Python" "4" "IT" 0.5%Q (Some "b") 40 ["Python"] ];
     rr_model_version := "1.0.0" |}.

Definition negative_rec : MLRec :=
  {| rec_course_id := 4; rec_relevance_score := Some (-1)%Q;
     rec_explanation := None |}.

Definition negative_answer : MLResponse :=
  {| ml_recommendations := [negative_rec];
     ml_model_version := Some "1.0.0" |}.

Definition demo_fallback_response : RecommendationResponse :=
  {| rr_learner_id := 7;
     rr_recommendations :=
       [ RecItem.mk 1 "First Aid" "3" "Health" 0.75%Q
           (Some "Recommended based on your profile") 40 ["First Aid"];
         RecItem.mk 2 "Nursing" "4" "Health" 0.75%Q
           (Some "Recommended based on your profile") 60 ["Nursing"] ];
     rr_model_version := "1.0.0-fallback" |}.

Definition demo_fallback_path : LearningPathResponse :=
  {| lp_learner_id := 7;
     lp_path_nodes :=
       [ PathItem.mk 1 "First Aid" "3" 1 4 true;
         PathItem.mk 2 "Nursing" "4" 2 6 true;
         PathItem.mk 4 "Networks" "5" 3 2 true ];
     lp_total_duration_weeks := 12;
     lp_target_nsqf_level := "5";
     lp_career_goal := "Nurse" |}.

(** A path of the ML service with a course the table lacks and absent
    keys; its total counts the three nodes. *)
Definition demo_path_data : MLPath :=
  {| mp_path_nodes :=
       [ {| node_course_id := 2; node_sequence_order := Some 1%Z;
            node_estimated_completion_weeks := Some 6%Z;
            node_prerequisites_met := Some true |};
         {| node_course_id := 9; node_sequence_order := Some 2%Z;
            node_estimated_completion_weeks := Some 3%Z;
            node_prerequisites_met := Some true |};
         {| node_course_id := 3; node_sequence_order := Some 3%Z;
            node_estimated_completion_weeks := None;
            node_prerequisites_met := None |} ];
     mp_total_duration_weeks := Some 13%Z;
     mp_target_nsqf_level := None |}.

Definition demo_path_response : LearningPathResponse :=
  {| lp_learner_id := 7;
     lp_path_nodes :=
       [ PathItem.mk 2 "Nursing" "4" 1 6 true;
         PathItem.mk 3 "Python" "4" 3 4 true ];
     lp_total_duration_weeks := 13;
     lp_target_nsqf_level := "5";
     lp_career_goal := "Nurse" |}.

(** What [recommend] returns on the demo catalog for two and for four
    courses, and what the route serves for two. *)
Definition demo_top2 : Recommendations :=
  {| recommendations := take 2 demo_all_recommendations;
     model_version := "1.0.0" |}.

Definition demo_top2_bare : Recommendations :=
  {| recommendations := [Item.mk 2 1%Q None; Item.mk 1 1%Q None];
     model_version := "1.0.0" |}.

Definition demo_top4 : Recommendations :=
  {| recommendations := demo_all_recommendations;
     model_version := "1.0.0" |}.

Definition demo_served : RecommendationResponse :=
  {| rr_learner_id := 7;
     rr_recommendations :=
       [ RecItem.mk 2 "Nursing" "4" "Health" 1%Q
           (Some "Highly aligned with your profile. Covers: Nursing")
           60 ["Nursing"];
         RecItem.mk 1 "First Aid" "3" "Health" 1%Q
           (Some "Highly aligned with your profile. Covers: First Aid")
           40 ["First Aid"] ];
     rr_model_version := "1.0.0" |}.

(** The path of the beginner on the shuffled catalog up to level 4. *)
Definition level4_path : LearningPath :=
  {| path_nodes :=
       [ Node.mk 1 1 4 true; Node.mk 2 2 6 true; Node.mk 3 3 4 true ];
     total_duration_weeks := 14;
     target_nsqf_level := "4" |}.

(** A catalog whose second course stays out of reach of the beginner,
    and one without prerequisites. *)
Definition stuck_engine : RecommendationEngine :=
  {| course_embeddings := None; courses_df := Some [first_aid; networks] |}.

Definition stuck_path : LearningPath :=
  {| path_nodes := [Node.mk 1 1 4 true];
     total_duration_weeks := 4;
     target_nsqf_level := "5" |}.

Definition open_engine : RecommendationEngine :=
  {| course_embeddings := None; courses_df := Some [python; first_aid] |}.

(** ** Facts on lists and sortedness *)

Lemma StronglySorted_sublist {A} (R : relation A) (l1 l2 : list A) :
  l1 `sublist_of` l2 → StronglySorted R l2 → StronglySorted R l1.
Proof.
  induction 1 as [|x l1 l2 Hsub IH|x l1 l2 Hsub IH]; intros Hs.
  - constructor.
  - apply StronglySorted_inv in Hs as [Hs Hx]. constructor; [auto|].
    rewrite Forall_forall in Hx |- *. intros y Hy. apply Hx.
    by eapply elem_of_sublist.
  - apply StronglySorted_inv in Hs as [Hs _]. auto.
Qed.

Lemma StronglySorted_reverse {A} (R : relation A) (l : list A) :
  StronglySorted R l → StronglySorted (flip R) (reverse l).
Proof.
  induction 1 as [|x l Hs IH Hx].
  - constructor.
  - rewrite reverse_cons. apply StronglySorted_app_2; [|done|].
    + intros y z Hy ->%list_elem_of_singleton. rewrite Forall_forall in Hx.
      apply Hx. by apply elem_of_reverse.
    + repeat constructor.
Qed.

Lemma StronglySorted_Forall2 {A B} (R1 : relation A) (R2 : relation B)
    (P : A → B → Prop) (l : list A) (k : list B) :
  (∀ a a' b b', P a b → P a' b' → R1 a a' → R2 b b') →
  Forall2 P l k → StronglySorted R1 l → StronglySorted R2 k.
Proof.
  intros HP. induction 1 as [|a b l k Hab Hlk IH]; intros Hs.
  - constructor.
  - apply StronglySorted_inv in Hs as [Hs Ha]. constructor; [auto|].
    clear IH Hs. induction Hlk as [|a' b' l k Hab' _ IH]; [constructor|].
    apply Forall_cons in Ha as [Haa' Ha]. constructor; eauto.
Qed.

Lemma py_slice_to_sublist {A} (k : Z) (l : list A) :
  py_slice_to k l `sublist_of` l.
Proof. unfold py_slice_to. destruct (k <? 0)%Z; apply sublist_take. Qed.

Lemma NoDup_fmap_eq {A B} (f : A → B) (l : list A) (x y : A) :
  NoDup (f <$> l) → x ∈ l → y ∈ l → f x = f y → x = y.
Proof.
  induction l as [|a l IH]; intros Hnd Hx Hy Hf; [by apply elem_of_nil in Hx|].
  rewrite fmap_cons in Hnd. apply NoDup_cons in Hnd as [Ha Hnd].
  apply elem_of_cons in Hx as [->|Hx], Hy as [->|Hy]; [done| | |by apply IH].
  - exfalso. apply Ha. rewrite Hf. by apply list_elem_of_fmap_2.
  - exfalso. apply Ha. rewrite <- Hf. by apply list_elem_of_fmap_2.
Qed.

Lemma excluded_false_respects (filters : option Filters.t) (course : Course.t) :
  excluded filters course = false → respects filters course.
Proof.
  unfold excluded, respects, truthy_int, truthy_str.
  intros H f ->.
  destruct (Filters.nsqf_level f) as [lvl|] eqn:El,
           (Filters.sector f) as [s|] eqn:Es;
    repeat split; intros x Hx Hne; simplify_eq.
  all: apply orb_false_iff in H as [H1 H2].
  all: try (apply andb_false_iff in H1 as [H1|H1];
            [apply negb_false_iff, Z.eqb_eq in H1; done
            |by apply negb_false_iff, Z.eqb_eq in H1]).
  all: try (apply andb_false_iff in H2 as [H2|H2];
            [apply negb_false_iff, String.eqb_eq in H2; done
            |by apply negb_false_iff, String.eqb_eq in H2]).
Qed.

(** ** The scan of the candidates *)

Section ScanFacts.

Variables (df : list Course.t) (similarities : list Q).
Variables (filters : option Filters.t) (top_k : Z).

(** What the scan returns extends [recs] by the items of a subsequence of
    the candidates, each built from a row that passes the filters. *)
Lemma scan_selects (idxs : list nat) (recs out : list Item.t) :
  scan df similarities filters top_k idxs recs = Ok out →
  ∃ sel new, out = recs ++ new ∧ sel `sublist_of` idxs ∧
             Forall2 (built_from df similarities filters) sel new.
Proof.
  revert recs. induction idxs as [|idx rest IH]; intros recs H; simpl in H.
  - exists [], []. rewrite app_nil_r. by simplify_eq.
  - destruct (Z.of_nat (length recs) >=? top_k)%Z.
    { exists [], []. rewrite app_nil_r. simplify_eq.
      split; [done|]. split; [apply sublist_nil_l|constructor]. }
    destruct (df !! idx) as [course|] eqn:Hdf; [|done].
    destruct (excluded filters course) eqn:Hex.
    + apply IH in H as (sel & new & -> & Hsub & HF).
      exists sel, new. split; [done|]. split; [by apply sublist_cons|done].
    + destruct (similarities !! idx) as [score|] eqn:Hs; [|done].
      apply IH in H as (sel & new & -> & Hsub & HF).
      eexists (idx :: sel), (_ :: new). rewrite <- app_assoc.
      split; [done|]. split; [by apply sublist_skip|].
      constructor; [|done]. by exists course, score.
Qed.

(** The length of what the scan returns. *)
Lemma scan_length (idxs : list nat) (recs out : list Item.t) :
  scan df similarities filters top_k idxs recs = Ok out →
  (Z.of_nat (length recs) ≤ top_k)%Z →
  Z.of_nat (length out) =
    Z.min top_k
      (Z.of_nat (length recs) +
       Z.of_nat (length (filter (λ i, qualifies df filters i = true) idxs))).
Proof.
  revert recs. induction idxs as [|idx rest IH]; intros recs H Hle; simpl in H.
  - simplify_eq. simpl. lia.
  - destruct (Z.geb_spec (Z.of_nat (length recs)) top_k) as [Hge|Hlt].
    { simplify_eq. lia. }
    destruct (df !! idx) as [course|] eqn:Hdf; [|done].
    destruct (excluded filters course) eqn:Hex.
    + rewrite filter_cons_False by (unfold qualifies; rewrite Hdf, Hex; done).
      by apply IH.
    + destruct (similarities !! idx) as [score|] eqn:Hs; [|done].
      rewrite filter_cons_True by (unfold qualifies; rewrite Hdf, Hex; done).
      apply IH in H; rewrite length_app in *; simpl in *; lia.
Qed.

(** The scan raises nothing when every candidate is a position of both
    the frame and the similarity row. *)
Lemma scan_returns (idxs : list nat) (recs : list Item.t) :
  Forall (λ i, i < length df ∧ i < length similarities) idxs →
  ∃ out, scan df similarities filters top_k idxs recs = Ok out.
Proof.
  intros HF. revert recs.
  induction HF as [|idx rest [H1 H2] _ IH]; intros recs; simpl; [by eexists|].
  destruct (Z.of_nat (length recs) >=? top_k)%Z; [by eexists|].
  destruct (lookup_lt_is_Some_2 df idx H1) as [course ->].
  destruct (lookup_lt_is_Some_2 similarities idx H2) as [score ->].
  destruct (excluded filters course); apply IH.
Qed.

End ScanFacts.

(** ** The ranker *)

Section RankerFacts.

Variable cosine_similarity : embedding → list embedding → result (list Q).
Variable argsort : list Q → list nat.

(** Unfolding [content_based_recommendations] on a loaded engine. *)
Lemma content_based_recommendations_loaded self v top_k filters table df :
  course_embeddings self = Some table → courses_df self = Some df →
  content_based_recommendations cosine_similarity argsort self v top_k filters =
    match cosine_similarity v table with
    | Ok sims => scan df sims filters top_k (top_indices argsort sims top_k) []
    | Raise e => Raise e
    end.
Proof.
  intros Ht Hd. unfold content_based_recommendations. rewrite Ht, Hd.
  by destruct (cosine_similarity v table).
Qed.

(** Without a table or without a frame the ranker returns the empty list. *)
Lemma content_based_recommendations_unloaded self v top_k filters :
  course_embeddings self = None ∨ courses_df self = None →
  content_based_recommendations cosine_similarity argsort self v top_k filters =
    Ok [].
Proof.
  unfold content_based_recommendations.
  intros [-> | ->]; [done|]. by destruct (course_embeddings self).
Qed.

(** Case analysis on a returned list: either nothing was loaded and the
    list is empty, or it is what the scan returned. *)
Lemma content_based_recommendations_inv self v top_k filters recs :
  content_based_recommendations cosine_similarity argsort self v top_k filters =
    Ok recs →
  recs = [] ∨
  ∃ table df sims,
    course_embeddings self = Some table ∧ courses_df self = Some df ∧
    cosine_similarity v table = Ok sims ∧
    scan df sims filters top_k (top_indices argsort sims top_k) [] = Ok recs.
Proof.
  intros H.
  destruct (course_embeddings self) as [table|] eqn:Ht; cycle 1.
  { rewrite content_based_recommendations_unloaded in H by auto.
    left. by simplify_eq. }
  destruct (courses_df self) as [df|] eqn:Hd; cycle 1.
  { rewrite content_based_recommendations_unloaded in H by auto.
    left. by simplify_eq. }
  rewrite (content_based_recommendations_loaded _ _ _ _ table df) in H by done.
  destruct (cosine_similarity v table) as [sims|] eqn:Hc; [|done].
  right. by exists table, df, sims.
Qed.

End RankerFacts.

(** ** The stable [argsort] meets the contract of [np.argsort] *)

Lemma insert_index_perm (a : list Q) (i : nat) (sorted : list nat) :
  insert_index a i sorted ≡ₚ i :: sorted.
Proof.
  induction sorted as [|j rest IH]; simpl; [done|].
  destruct (Qle_bool (key a j) (key a i)); [|done].
  rewrite IH. apply Permutation_swap.
Qed.

Lemma insert_index_sorted (a : list Q) (i : nat) (sorted : list nat) :
  StronglySorted (λ i j, (key a i <= key a j)%Q) sorted →
  StronglySorted (λ i j, (key a i <= key a j)%Q) (insert_index a i sorted).
Proof.
  induction 1 as [|j rest Hs IH Hj]; simpl; [repeat constructor|].
  destruct (Qle_bool (key a j) (key a i)) eqn:Hle.
  - constructor; [done|]. rewrite insert_index_perm.
    constructor; [by apply Qle_bool_iff|done].
  - assert (key a i <= key a j)%Q as Hij.
    { apply Qlt_le_weak, Qnot_le_lt. intros Hc%Qle_bool_iff. congruence. }
    constructor; [by constructor|]. constructor; [done|].
    eapply Forall_impl; [exact Hj|]. intros k Hk. simpl in Hk.
    by eapply Qle_trans.
Qed.

Lemma argsort_stable_perm (a : list Q) :
  argsort_stable a ≡ₚ seq 0 (length a).
Proof.
  unfold argsort_stable.
  enough (∀ l acc, foldl (λ sorted i, insert_index a i sorted) acc l ≡ₚ l ++ acc)
    as H by (rewrite H; by rewrite app_nil_r).
  induction l as [|x l IH]; intros acc; simpl; [done|].
  rewrite IH, insert_index_perm. by rewrite Permutation_middle.
Qed.

Lemma argsort_stable_sorted (a : list Q) :
  StronglySorted (λ i j, (key a i <= key a j)%Q) (argsort_stable a).
Proof.
  unfold argsort_stable.
  enough (∀ l acc, StronglySorted (λ i j, (key a i <= key a j)%Q) acc →
            StronglySorted (λ i j, (key a i <= key a j)%Q)
              (foldl (λ sorted i, insert_index a i sorted) acc l))
    as H by (apply H; constructor).
  induction l as [|x l IH]; intros acc Hacc; simpl; [done|].
  by apply IH, insert_index_sorted.
Qed.

Lemma cosine_similarity_ref_shape (v : embedding) (table : list embedding)
    (sims : list Q) :
  cosine_similarity_ref v table = Ok sims → length sims = length table.
Proof.
  unfold cosine_similarity_ref. intros H.
  destruct v, table; try done;
    destruct (forallb _ _); simplify_eq; simpl; f_equal; apply length_fmap.
Qed.

(** ** Claims on the ranker *)

Section RankerClaims.

Variable encode : string → embedding.
Variable cosine_similarity : embedding → list embedding → result (list Q).
Variable argsort : list Q → list nat.

(** [np.argsort] returns indices in ascending order of their keys, and
    every index once. *)
Hypothesis argsort_sorted :
  ∀ a, StronglySorted (λ i j, (key a i <= key a j)%Q) (argsort a).
Hypothesis argsort_perm : ∀ a, argsort a ≡ₚ seq 0 (length a).
(** [cosine_similarity] returns one score per row of the table. *)
Hypothesis cosine_similarity_shape :
  ∀ v table sims,
    cosine_similarity v table = Ok sims → length sims = length table.

Lemma top_indices_descending (sims : list Q) (top_k : Z) :
  StronglySorted (λ i j, (key sims j <= key sims i)%Q)
    (top_indices argsort sims top_k).
Proof.
  unfold top_indices.
  eapply StronglySorted_sublist; [apply py_slice_to_sublist|].
  apply (StronglySorted_reverse _ _ (argsort_sorted sims)).
Qed.

Lemma top_indices_in_range (sims : list Q) (top_k : Z) :
  Forall (λ i, i < length sims) (top_indices argsort sims top_k).
Proof.
  apply Forall_forall. intros i Hi.
  eapply elem_of_sublist in Hi; [|apply py_slice_to_sublist].
  rewrite elem_of_reverse, argsort_perm, elem_of_seq in Hi. lia.
Qed.

(** With a table that has one row per course, whenever the similarity
    computation succeeds the ranker returns a list. *)
Lemma content_based_recommendations_returns self v top_k filters table df sims :
  course_embeddings self = Some table → courses_df self = Some df →
  length table = length df →
  cosine_similarity v table = Ok sims →
  ∃ recs,
    content_based_recommendations cosine_similarity argsort
      self v top_k filters = Ok recs.
Proof.
  intros Ht Hd Hlen Hc.
  rewrite (content_based_recommendations_loaded _ _ _ _ _ _ table df) by done.
  rewrite Hc. apply scan_returns.
  eapply Forall_impl; [apply top_indices_in_range|]. simpl. intros i Hi.
  apply cosine_similarity_shape in Hc. lia.
Qed.

(** C1 (as amended): the list the ranker returns is sorted by
    non-increasing [relevance_score], and its items follow the order of
    the reversed [argsort]: they are built, one by one, from a subsequence
    of [np.argsort(similarities)[::-1]]. Items of equal score therefore
    come in the order [argsort] gives to equal keys, not by
    [course_id]. *)
Theorem ranking_sorted_by_score self v top_k filters recs :
  content_based_recommendations cosine_similarity argsort
    self v top_k filters = Ok recs →
  sorted_by_score recs ∧
  ∀ table df sims,
    course_embeddings self = Some table → courses_df self = Some df →
    cosine_similarity v table = Ok sims →
    ∃ sel : list nat,
      sel `sublist_of` reverse (argsort sims) ∧
      Forall2 (built_from df sims filters) sel recs.
Proof.
  intros [->|(table & df & sims & Ht & Hd & Hc & H)]%content_based_recommendations_inv.
  { split; [constructor|]. intros table df sims _ _ _. exists [].
    split; [apply sublist_nil_l|constructor]. }
  apply scan_selects in H as (sel & new & -> & Hsub & HF). simpl. split.
  - eapply (StronglySorted_Forall2 (λ i j, (key sims j <= key sims i)%Q));
      [|exact HF|].
    + intros i j x y (c & s & _ & Hs & _ & ->) (c' & s' & _ & Hs' & _ & ->) Hij.
      simpl. unfold key in Hij.
      by rewrite (nth_lookup_Some _ _ _ _ Hs), (nth_lookup_Some _ _ _ _ Hs')
        in Hij.
    + eapply StronglySorted_sublist; [exact Hsub|apply top_indices_descending].
  - intros table' df' sims' Ht' Hd' Hc'.
    assert (table' = table) as -> by congruence.
    assert (df' = df) as -> by congruence.
    assert (sims' = sims) as -> by congruence.
    exists sel. split; [|done].
    etrans; [exact Hsub|]. apply py_slice_to_sublist.
Qed.

(** C2 (as amended): when at least [top_k] of the candidates, the
    [2 * top_k] most similar entries, satisfy the filters, the ranker
    returns exactly [top_k] items. *)
Theorem ranking_full_when_candidates_qualify
    self v top_k filters table df sims recs :
  course_embeddings self = Some table → courses_df self = Some df →
  cosine_similarity v table = Ok sims →
  content_based_recommendations cosine_similarity argsort
    self v top_k filters = Ok recs →
  (0 ≤ top_k)%Z →
  (top_k ≤ Z.of_nat (length (filter (λ i, qualifies df filters i = true)
                               (top_indices argsort sims top_k))))%Z →
  Z.of_nat (length recs) = top_k.
Proof.
  intros Ht Hd Hc H H0 Hq.
  rewrite (content_based_recommendations_loaded _ _ _ _ _ _ table df) in H
    by done.
  rewrite Hc in H. apply scan_length in H; simpl in *; lia.
Qed.

(** C4: the ranker returns at most [top_k] items, and every item comes
    from a catalog entry that agrees with each active filter; when course
    ids are unique, so does every catalog entry with the item's id. *)
Theorem ranking_bounded_and_filtered self v top_k filters recs :
  content_based_recommendations cosine_similarity argsort
    self v top_k filters = Ok recs →
  (0 ≤ top_k)%Z →
  (Z.of_nat (length recs) ≤ top_k)%Z ∧
  (∀ item, item ∈ recs →
     ∃ course, course ∈ catalog self ∧
               Course.id course = Item.course_id item ∧
               respects filters course) ∧
  (NoDup (Course.id <$> catalog self) →
   ∀ item course, item ∈ recs → course ∈ catalog self →
     Course.id course = Item.course_id item → respects filters course).
Proof.
  intros H H0.
  assert (∀ item, item ∈ recs →
     ∃ course, course ∈ catalog self ∧
               Course.id course = Item.course_id item ∧
               respects filters course) as Hitems.
  { apply content_based_recommendations_inv in H
      as [->|(table & df & sims & _ & Hd & _ & H)].
    { intros item Hin. by apply elem_of_nil in Hin. }
    apply scan_selects in H as (sel & new & -> & _ & HF). simpl.
    intros item Hin. apply list_elem_of_lookup in Hin as [n Hn].
    destruct (Forall2_lookup_r _ _ _ _ _ HF Hn)
      as (idx & _ & course & score & Hdf & _ & Hex & ->).
    exists course. unfold catalog. rewrite Hd. simpl.
    split; [by eapply list_elem_of_lookup_2|].
    split; [done|by apply excluded_false_respects]. }
  split; [|split; [done|]].
  - apply content_based_recommendations_inv in H
      as [->|(table & df & sims & _ & _ & _ & H)]; [simpl; lia|].
    apply scan_length in H; simpl in *; lia.
  - intros Hnd item course Hin Hc Hid.
    destruct (Hitems item Hin) as (course' & Hc' & Hid' & Hr).
    assert (course = course') as ->; [|done].
    eapply (NoDup_fmap_eq Course.id); [exact Hnd|done|done|congruence].
Qed.

(** C10 (as amended): [recommend] passes no filter on: its list is what
    [content_based_recommendations] returns for [filters = None], as it is
    when explanations are included and with the explanation popped from
    every item otherwise; ids and scores are the same, in the same order,
    in both cases. *)
Theorem recommend_unfiltered self learner_data top_k include_explanations :
  match content_based_recommendations cosine_similarity argsort self
          (compute_learner_profile_embedding encode learner_data) top_k None
  with
  | Ok recs =>
      ∃ r, recommend encode cosine_similarity argsort self learner_data
             top_k include_explanations = Ok r ∧
           recommendations r =
             (if include_explanations then recs
              else pop_explanation <$> recs) ∧
           Item.course_id <$> recommendations r = Item.course_id <$> recs ∧
           Item.relevance_score <$> recommendations r =
             Item.relevance_score <$> recs
  | Raise e =>
      recommend encode cosine_similarity argsort self learner_data
        top_k include_explanations = Raise e
  end.
Proof.
  unfold recommend.
  destruct (content_based_recommendations _ _ _ _ _ _) as [recs|e]; [|done].
  eexists. split; [done|]. simpl.
  destruct include_explanations; simpl; [done|].
  split; [done|]. rewrite <- !list_fmap_compose. split; by apply list_fmap_ext.
Qed.

End RankerClaims.

(** ** The ranker on the demo catalog *)

Lemma demo_ranking_all :
  content_based_recommendations cosine_similarity_ref argsort_stable
    demo_engine demo_vector 4 None = Ok demo_all_recommendations.
Proof. vm_compute. reflexivity. Qed.

Lemma demo_ranking_it :
  content_based_recommendations cosine_similarity_ref argsort_stable
    demo_engine demo_vector 2 it_only = Ok demo_it_recommendations.
Proof. vm_compute. reflexivity. Qed.

Lemma ranking_sorted_by_score_witness :
  sorted_by_score demo_all_recommendations ∧
  ∀ table df sims,
    course_embeddings demo_engine = Some table →
    courses_df demo_engine = Some df →
    cosine_similarity_ref demo_vector table = Ok sims →
    ∃ sel : list nat,
      sel `sublist_of` reverse (argsort_stable sims) ∧
      Forall2 (built_from df sims None) sel demo_all_recommendations.
Proof.
  apply (ranking_sorted_by_score cosine_similarity_ref argsort_stable
           argsort_stable_sorted demo_engine demo_vector 4 None).
  vm_compute. reflexivity.
Defined.

(** Whatever order an [argsort] gives to two equal keys, one of the two
    catalogs that hold the two health courses, in either order, is ranked
    with the larger id first. *)
Lemma tie_order_ignores_course_id (argsort : list Q → list nat) :
  (∀ a, argsort a ≡ₚ seq 0 (length a)) →
  ∃ df recs,
    df ∈ [[first_aid; nursing]; [nursing; first_aid]] ∧
    content_based_recommendations cosine_similarity_ref argsort
      {| course_embeddings := Some [[1; 0]; [1; 0]]%Q; courses_df := Some df |}
      demo_vector 2 None = Ok recs ∧
    ¬ ties_by_course_id recs.
Proof.
  intros Hperm. pose proof (Hperm [1; 1]%Q) as Hp. simpl in Hp.
  assert (cosine_similarity_ref demo_vector [[1; 0]; [1; 0]]%Q
          = Ok [1; 1]%Q) as Hcos by (vm_compute; reflexivity).
  apply Permutation_sym, Permutation_length_2_inv in Hp as [Hp|Hp].
  - exists [first_aid; nursing]. eexists. split_and!.
    + apply list_elem_of_here.
    + rewrite (content_based_recommendations_loaded _ _ _ _ _ _
                 [[1; 0]; [1; 0]]%Q [first_aid; nursing]) by reflexivity.
      rewrite Hcos. unfold top_indices. rewrite Hp. reflexivity.
    + intros H.
      specialize (H 0 1 _ _ ltac:(lia) eq_refl eq_refl ltac:(reflexivity)).
      simpl in H. lia.
  - exists [nursing; first_aid]. eexists. split_and!.
    + apply list_elem_of_further, list_elem_of_here.
    + rewrite (content_based_recommendations_loaded _ _ _ _ _ _
                 [[1; 0]; [1; 0]]%Q [nursing; first_aid]) by reflexivity.
      rewrite Hcos. unfold top_indices. rewrite Hp. reflexivity.
    + intros H.
      specialize (H 0 1 _ _ ltac:(lia) eq_refl eq_refl ltac:(reflexivity)).
      simpl in H. lia.
Qed.

(** C1, the claim as stated fails, whatever the order [argsort] gives to
    equal keys: two courses whose embeddings equal the learner vector both
    score 1, and of the two catalogs that hold them, in either order, one
    is ranked with the larger id first. *)
Lemma ranking_ties_not_by_course_id :
  cosine_similarity_ref demo_vector [[1; 0]; [1; 0]]%Q = Ok [1; 1]%Q ∧
  ∀ argsort : list Q → list nat,
    (∀ a, argsort a ≡ₚ seq 0 (length a)) →
    ∃ df recs,
      df ∈ [[first_aid; nursing]; [nursing; first_aid]] ∧
      content_based_recommendations cosine_similarity_ref argsort
        {| course_embeddings := Some [[1; 0]; [1; 0]]%Q;
           courses_df := Some df |}
        demo_vector 2 None = Ok recs ∧
      ¬ ties_by_course_id recs.
Proof.
  split; [vm_compute; reflexivity|]. exact tie_order_ignores_course_id.
Qed.

Lemma ranking_full_when_candidates_qualify_witness :
  (2 ≤ Z.of_nat (length (filter
          (λ i, qualifies [first_aid; nursing; python; networks] it_only i = true)
          (top_indices argsort_stable [1; 1; 3 # 5; -1]%Q 2))))%Z ∧
  Z.of_nat (length demo_it_recommendations) = 2%Z.
Proof.
  split; [vm_compute; discriminate|].
  apply (ranking_full_when_candidates_qualify cosine_similarity_ref
           argsort_stable demo_engine demo_vector 2 it_only
           [[1; 0]; [1; 0]; [3; 4]; [-1; 0]]%Q
           [first_aid; nursing; python; networks]
           [1; 1; 3 # 5; -1]%Q demo_it_recommendations).
  - reflexivity.
  - reflexivity.
  - vm_compute. reflexivity.
  - vm_compute. reflexivity.
  - lia.
  - vm_compute. discriminate.
Defined.

(** C2, the claim as stated fails: two catalog entries are IT courses, yet
    with [top_k = 1] the two candidates are the health courses and the
    ranker returns nothing. *)
Lemma ranking_short_despite_qualifying_entries :
  ∃ recs,
    content_based_recommendations cosine_similarity_ref argsort_stable
      demo_engine demo_vector 1 it_only = Ok recs ∧
    (1 ≤ Z.of_nat (count_satisfying it_only (catalog demo_engine)))%Z ∧
    Z.of_nat (length recs) ≠ 1%Z.
Proof.
  exists []. split; [vm_compute; reflexivity|].
  split; [vm_compute; discriminate|simpl; lia].
Qed.

(** C3, at the failing input: the course whose embedding is opposite to
    the learner vector is returned with the score -1, outside [0, 1]:
    nothing clamps the similarity. *)
Theorem relevance_score_not_clamped :
  content_based_recommendations cosine_similarity_ref argsort_stable
    demo_engine demo_vector 4 None = Ok demo_all_recommendations ∧
  ∃ item, item ∈ demo_all_recommendations ∧ Item.course_id item = 4%Z ∧
          (Item.relevance_score item < 0)%Q.
Proof.
  split; [vm_compute; reflexivity|].
  eexists. split; [apply list_elem_of_lookup; by exists 3|].
  split; reflexivity.
Qed.

Lemma ranking_bounded_and_filtered_witness :
  (Z.of_nat (length demo_it_recommendations) ≤ 2)%Z ∧
  (∀ item, item ∈ demo_it_recommendations →
     ∃ course, course ∈ catalog demo_engine ∧
               Course.id course = Item.course_id item ∧
               respects it_only course) ∧
  (NoDup (Course.id <$> catalog demo_engine) →
   ∀ item course, item ∈ demo_it_recommendations →
     course ∈ catalog demo_engine →
     Course.id course = Item.course_id item → respects it_only course).
Proof.
  apply (ranking_bounded_and_filtered cosine_similarity_ref argsort_stable
           demo_engine demo_vector 2 it_only demo_it_recommendations).
  - vm_compute. reflexivity.
  - lia.
Defined.

(** C10, the claim as stated fails: without explanations the list of
    [recommend] is not the list the ranker returns. *)
Lemma recommend_pops_explanations :
  ∃ r recs,
    recommend encode_unit cosine_similarity_ref argsort_stable
      demo_engine demo_learner 1 false = Ok r ∧
    content_based_recommendations cosine_similarity_ref argsort_stable
      demo_engine (compute_learner_profile_embedding encode_unit demo_learner)
      1 None = Ok recs ∧
    recommendations r ≠ recs.
Proof.
  do 2 eexists. split; [vm_compute; reflexivity|].
  split; [vm_compute; reflexivity|]. simpl. discriminate.
Qed.

(** ** The path loop *)

Lemma filter_first {A} (P : A → Prop) `{!∀ x, Decision (P x)}
    (pre post : list A) (x : A) :
  Forall (λ y, ¬ P y) pre → P x →
  filter P (pre ++ x :: post) = x :: filter P post.
Proof.
  induction 1 as [|y pre Hy _ IH]; intros Hx; simpl.
  - by rewrite filter_cons_True.
  - rewrite filter_cons_False by done. by apply IH.
Qed.

Lemma filter_head_split {A} (P : A → Prop) `{!∀ x, Decision (P x)}
    (l k : list A) (x : A) :
  filter P l = x :: k →
  ∃ pre post, l = pre ++ x :: post ∧ Forall (λ y, ¬ P y) pre ∧ P x.
Proof.
  induction l as [|y l IH]; intros Hf; [done|].
  destruct (decide (P y)) as [Hy|Hy].
  - rewrite filter_cons_True in Hf by done. simplify_eq.
    by exists [], l.
  - rewrite filter_cons_False in Hf by done.
    destruct (IH Hf) as (pre & post & -> & Hpre & Hx).
    exists (y :: pre), post. split; [done|]. split; [by constructor|done].
Qed.

Lemma filter_nil_Forall {A} (P : A → Prop) `{!∀ x, Decision (P x)}
    (l : list A) :
  filter P l = [] ↔ Forall (λ y, ¬ P y) l.
Proof.
  induction l as [|y l IH]; [by split; [constructor|]|].
  destruct (decide (P y)) as [Hy|Hy].
  - rewrite filter_cons_True by done. split; [done|].
    intros [Hn _]%Forall_cons. done.
  - rewrite filter_cons_False by done. rewrite IH. split.
    + by constructor.
    + by intros [_ ?]%Forall_cons.
Qed.

(** The inner loop collects, in order, the rows that are eligible. *)
Lemma eligible_loop_filter (skills : gset string)
    (rows acc : list (nat * Course.t)) :
  eligible_loop skills rows acc =
    acc ++ filter (λ row, eligible skills row.2 = true) rows.
Proof.
  revert acc. induction rows as [|[idx course] rest IH]; intros acc; simpl.
  - by rewrite app_nil_r.
  - destruct (eligible skills course) eqn:E.
    + rewrite IH, filter_cons_True by done. by rewrite <- app_assoc.
    + rewrite IH, filter_cons_False by (simpl; congruence). done.
Qed.

(** Nothing is eligible exactly when the inner loop collects nothing. *)
Lemma eligible_loop_nil (skills : gset string) (rows : list (nat * Course.t)) :
  eligible_loop skills rows [] = [] ↔
  Forall (λ row, eligible skills row.2 = false) rows.
Proof.
  rewrite eligible_loop_filter. simpl. rewrite filter_nil_Forall.
  apply Forall_proper; [|done]. intros row. by destruct (eligible skills row.2).
Qed.

(** The head of what the inner loop collects is the first eligible row. *)
Lemma eligible_loop_first (skills : gset string)
    (pre post : list (nat * Course.t)) (idx : nat) (course : Course.t) :
  Forall (λ row, eligible skills row.2 = false) pre →
  eligible skills course = true →
  ∃ rest, eligible_loop skills (pre ++ (idx, course) :: post) []
          = (idx, course) :: rest.
Proof.
  intros Hpre Hc. rewrite eligible_loop_filter. simpl.
  rewrite filter_first; [by eexists| |done].
  eapply Forall_impl; [exact Hpre|]. simpl. intros row Hr. congruence.
Qed.

Lemma eligible_loop_head (skills : gset string)
    (rows rest : list (nat * Course.t)) (idx : nat) (course : Course.t) :
  eligible_loop skills rows [] = (idx, course) :: rest →
  (idx, course) ∈ rows ∧ eligible skills course = true.
Proof.
  rewrite eligible_loop_filter. simpl. intros H.
  assert ((idx, course) ∈ filter (λ row, eligible skills row.2 = true) rows)
    as Hin by (rewrite H; apply list_elem_of_here).
  by apply list_elem_of_filter in Hin as [? ?].
Qed.

Lemma path_loop_stalled (n : nat) (st : PathState) :
  eligible_loop (st_current_skills st) (st_available_courses st) [] = [] →
  path_loop n st = st.
Proof. intros H. destruct n; simpl; [done|]. by rewrite H. Qed.

(** Iterations compose: a stalled state stays as it is. *)
Lemma path_loop_add (a b : nat) (st : PathState) :
  path_loop (a + b) st = path_loop b (path_loop a st).
Proof.
  revert st. induction a as [|a IH]; intros st; simpl; [done|].
  destruct (eligible_loop _ _ _) as [|[idx course] rest] eqn:E.
  - by rewrite path_loop_stalled.
  - apply IH.
Qed.

Lemma acquired_nil (skills : gset string) : acquired skills [] = skills.
Proof. unfold acquired. simpl. by rewrite (right_id_L ∅ (∪)). Qed.

Lemma acquired_cons (skills : gset string) (course : Course.t)
    (courses : list Course.t) :
  acquired skills (course :: courses) =
    acquired (skills ∪ list_to_set (Course.skills_covered course)) courses.
Proof. unfold acquired. simpl. by rewrite (assoc_L (∪)). Qed.

(** The state after the loop, in terms of the rows it chose. *)
Lemma path_loop_trace (n : nat) (st : PathState) :
  st_path_nodes (path_loop n st) =
    st_path_nodes st ++ nodes_of (st_sequence_order st) (path_picks n st).*2 ∧
  st_total_weeks (path_loop n st) =
    (st_total_weeks st +
     foldr Z.add 0
       (Node.estimated_completion_weeks <$>
          nodes_of (st_sequence_order st) (path_picks n st).*2))%Z ∧
  st_current_skills (path_loop n st) =
    acquired (st_current_skills st) (path_picks n st).*2.
Proof.
  revert st. induction n as [|n IH]; intros st; simpl.
  { rewrite app_nil_r, acquired_nil. split_and!; [done|lia|done]. }
  destruct (eligible_loop _ _ _) as [|[idx course] rest] eqn:E; simpl.
  { rewrite app_nil_r, acquired_nil. split_and!; [done|lia|done]. }
  destruct (IH (path_step st idx course)) as (Hn & Hw & Hs).
  rewrite Hn, Hw, Hs, acquired_cons. simpl.
  rewrite <- app_assoc. split_and!; [done|by rewrite <- Z.add_assoc|done].
Qed.

Lemma path_picks_length (n : nat) (st : PathState) :
  length (path_picks n st) ≤ n.
Proof.
  revert st. induction n as [|n IH]; intros st; simpl; [done|].
  destruct (eligible_loop _ _ _) as [|[idx course] rest]; simpl; [lia|].
  specialize (IH (path_step st idx course)). lia.
Qed.

(** Every chosen row is a row of the frame the loop started from. *)
Lemma path_picks_available (n : nat) (st : PathState) (row : nat * Course.t) :
  row ∈ path_picks n st → row ∈ st_available_courses st.
Proof.
  revert st. induction n as [|n IH]; intros st; simpl.
  { intros H. by apply elem_of_nil in H. }
  destruct (eligible_loop _ _ _) as [|[idx course] rest] eqn:E.
  { intros H. by apply elem_of_nil in H. }
  intros [->|Hin]%elem_of_cons.
  - by apply eligible_loop_head in E as [? _].
  - apply IH in Hin. simpl in Hin. unfold drop_label in Hin.
    by apply list_elem_of_filter in Hin as [_ ?].
Qed.

(** No row is chosen twice: [drop] removes it from the frame. *)
Lemma path_picks_NoDup (n : nat) (st : PathState) : NoDup (path_picks n st).
Proof.
  revert st. induction n as [|n IH]; intros st; simpl; [constructor|].
  destruct (eligible_loop _ _ _) as [|[idx course] rest] eqn:E; [constructor|].
  constructor; [|apply IH].
  intros Hin%path_picks_available. simpl in Hin. unfold drop_label in Hin.
  apply list_elem_of_filter in Hin as [Hne _]. by apply Hne.
Qed.

(** Every chosen course was eligible given the skills acquired through
    the courses chosen before it. *)
Lemma path_picks_eligible (n : nat) (st : PathState) (i : nat)
    (row : nat * Course.t) :
  path_picks n st !! i = Some row →
  eligible (acquired (st_current_skills st) (take i (path_picks n st)).*2)
    row.2 = true.
Proof.
  revert st i. induction n as [|n IH]; intros st i; simpl; [done|].
  destruct (eligible_loop _ _ _) as [|[idx course] rest] eqn:E; [done|].
  destruct i as [|i]; simpl.
  - intros ?; simplify_eq. rewrite acquired_nil.
    by apply eligible_loop_head in E as [_ ?].
  - intros H. apply IH in H. by rewrite acquired_cons.
Qed.

(** ** Emitted nodes *)

Lemma nodes_of_length (order : Z) (courses : list Course.t) :
  length (nodes_of order courses) = length courses.
Proof.
  revert order. induction courses as [|c cs IH]; intros order; simpl; auto.
Qed.

Lemma nodes_of_Forall2 (order : Z) (courses : list Course.t) :
  Forall2 (λ node course,
             Node.course_id node = Course.id course ∧
             Node.estimated_completion_weeks node =
               (Course.duration_hours course `div` 10)%Z ∧
             Node.prerequisites_met node = true)
    (nodes_of order courses) courses.
Proof.
  revert order. induction courses as [|c cs IH]; intros order; simpl;
    constructor; auto.
Qed.

Lemma nodes_of_course_id (order : Z) (courses : list Course.t) :
  Node.course_id <$> nodes_of order courses = Course.id <$> courses.
Proof.
  revert order. induction courses as [|c cs IH]; intros order; simpl;
    [done|]. by rewrite IH.
Qed.

Lemma nodes_of_sequence_order (k : nat) (courses : list Course.t) :
  Node.sequence_order <$> nodes_of (Z.of_nat k) courses =
    Z.of_nat <$> seq k (length courses).
Proof.
  revert k. induction courses as [|c cs IH]; intros k; simpl; [done|].
  f_equal. replace (Z.of_nat k + 1)%Z with (Z.of_nat (S k)) by lia.
  apply IH.
Qed.

(** ** Rows of the frame *)

Lemma iterrows_from_snd (start : nat) (df : list Course.t) :
  (iterrows_from start df).*2 = df.
Proof.
  revert start. induction df as [|c df IH]; intros start; simpl; [done|].
  by rewrite IH.
Qed.

(** ** Claims on the path builder *)

Section PathClaims.

Variable int : string → result Z.

Lemma select_level_sublist target_level rows rows' :
  select_level int target_level rows = Ok rows' → rows' `sublist_of` rows.
Proof.
  unfold select_level. intros H.
  destruct target_level as [s|]; [destruct (truthy_str s)|];
    try (unfold mret, result_ret in H; simplify_eq; done).
  destruct (int s) as [lvl|]; simpl in H; [|done].
  unfold mret, result_ret in H. simplify_eq. apply sublist_filter.
Qed.

(** What a returned path is made of: the rows the loop chose from the
    catalog, no row twice, each one eligible when it was chosen. *)
Lemma generate_learning_path_picks
    self learner_data career_goal target_level path :
  generate_learning_path int self learner_data career_goal target_level
    = Ok path →
  ∃ picks : list (nat * Course.t),
    path_nodes path = nodes_of 1 picks.*2 ∧
    total_duration_weeks path =
      foldr Z.add 0%Z (Node.estimated_completion_weeks <$> path_nodes path) ∧
    NoDup picks ∧
    (∀ row, row ∈ picks → row ∈ iterrows_from 0 (catalog self)) ∧
    (∀ i row, picks !! i = Some row →
       eligible (acquired (list_to_set (prior_skills learner_data))
                   (take i picks).*2) row.2 = true).
Proof.
  unfold generate_learning_path, catalog. intros H.
  destruct (courses_df self) as [df|]; cycle 1.
  { simplify_eq. exists []. simpl. split_and!; try done. constructor. }
  cbn [default].
  destruct (select_level int target_level (iterrows_from 0 df))
    as [rows|] eqn:Hsel; [|done].
  cbn [mbind result_bind] in H. unfold mret, result_ret in H.
  remember (Nat.min 5 (length rows)) as n eqn:Hmin in H. clear Hmin.
  remember (initial_state (list_to_set (prior_skills learner_data)) rows)
    as st0 eqn:Hst0 in H.
  injection H as <-. cbn [path_nodes total_duration_weeks].
  destruct (path_loop_trace n st0) as (Hn & Hw & _).
  exists (path_picks n st0). split_and!.
  - rewrite Hn. by subst st0.
  - rewrite Hw, Hn. subst st0. simpl. lia.
  - apply path_picks_NoDup.
  - intros row Hin%path_picks_available. subst st0.
    eapply elem_of_sublist; [exact Hin|by eapply select_level_sublist].
  - intros i row Hrow. apply (path_picks_eligible n st0) in Hrow.
    by subst st0.
Qed.

Lemma picked_course_in_catalog self (picks : list (nat * Course.t)) course :
  (∀ row, row ∈ picks → row ∈ iterrows_from 0 (catalog self)) →
  course ∈ picks.*2 → course ∈ catalog self.
Proof.
  intros Hsub Hin. apply list_elem_of_fmap in Hin as (row & -> & Hrow).
  rewrite <- (iterrows_from_snd 0 (catalog self)).
  apply list_elem_of_fmap_2. by apply Hsub.
Qed.

(** The path builder returns a path whenever [int] accepts the target
    level it is given (or none is given) and the frame, if one is loaded,
    has a row: a frame made of no record has no [nsqf_level] column to
    select on. *)
Lemma generate_learning_path_returns
    self learner_data career_goal target_level :
  courses_df self ≠ Some [] →
  (∀ s, target_level = Some s → truthy_str s = true → ∃ lvl, int s = Ok lvl) →
  ∃ path,
    generate_learning_path int self learner_data career_goal target_level
      = Ok path.
Proof.
  intros _ Hint. unfold generate_learning_path.
  destruct (courses_df self) as [df|]; [|by eexists].
  assert (∃ rows, select_level int target_level (iterrows_from 0 df) = Ok rows)
    as [rows ->]; [|by eexists].
  unfold select_level. destruct target_level as [s|]; [|by eexists].
  destruct (truthy_str s) eqn:Hs; [|by eexists].
  destruct (Hint s eq_refl Hs) as [lvl ->]. by eexists.
Qed.

(** C5: the prerequisites of the course of every node are among the
    skills acquired strictly before its step, the learner's prior skills
    and the skills covered by the courses of the earlier nodes; every
    node has [prerequisites_met = True]. *)
Theorem path_prerequisites_acquired
    self learner_data career_goal target_level path :
  generate_learning_path int self learner_data career_goal target_level
    = Ok path →
  ∃ courses : list Course.t,
    Forall2 (λ node course,
               Node.course_id node = Course.id course ∧
               Node.prerequisites_met node = true)
      (path_nodes path) courses ∧
    (∀ course, course ∈ courses → course ∈ catalog self) ∧
    (∀ i course, courses !! i = Some course →
       (list_to_set (Course.prerequisites course) : gset string) ⊆
         acquired (list_to_set (prior_skills learner_data)) (take i courses)).
Proof.
  intros (picks & Hn & _ & _ & Hsub & Hel)%generate_learning_path_picks.
  exists picks.*2. split_and!.
  - rewrite Hn. eapply Forall2_impl; [apply nodes_of_Forall2|].
    simpl. tauto.
  - intros course. by apply picked_course_in_catalog.
  - intros i course Hc. rewrite list_lookup_fmap in Hc.
    destruct (picks !! i) as [row|] eqn:Hrow; simplify_eq/=.
    apply Hel in Hrow. rewrite <- fmap_take.
    by apply bool_decide_eq_true in Hrow.
Qed.

(** C6: when the course ids of the catalog are unique no [course_id]
    occurs twice in the path, and the [sequence_order] values are
    1, 2, ..., len(path) in this order. *)
Theorem path_no_duplicates_and_ordered
    self learner_data career_goal target_level path :
  generate_learning_path int self learner_data career_goal target_level
    = Ok path →
  NoDup (Course.id <$> catalog self) →
  NoDup (Node.course_id <$> path_nodes path) ∧
  Node.sequence_order <$> path_nodes path =
    Z.of_nat <$> seq 1 (length (path_nodes path)).
Proof.
  intros (picks & Hn & _ & Hnd & Hsub & _)%generate_learning_path_picks Hids.
  rewrite Hn. split.
  - rewrite nodes_of_course_id, <- list_fmap_compose.
    apply NoDup_fmap_2_strong; [|done].
    intros x y Hx%Hsub Hy%Hsub Hxy.
    eapply (NoDup_fmap_eq (Course.id ∘ snd)); [|exact Hx|exact Hy|exact Hxy].
    by rewrite list_fmap_compose, iterrows_from_snd.
  - rewrite nodes_of_length. apply (nodes_of_sequence_order 1).
Qed.

(** C8: the weeks of every node are the hours of its course divided by
    ten, rounded down, and the total is the sum of the weeks of the
    nodes. *)
Theorem path_weeks_and_total
    self learner_data career_goal target_level path :
  generate_learning_path int self learner_data career_goal target_level
    = Ok path →
  (∃ courses : list Course.t,
     Forall2 (λ node course,
                Node.course_id node = Course.id course ∧
                Node.estimated_completion_weeks node =
                  (Course.duration_hours course `div` 10)%Z)
       (path_nodes path) courses ∧
     (∀ course, course ∈ courses → course ∈ catalog self)) ∧
  total_duration_weeks path =
    foldr Z.add 0%Z (Node.estimated_completion_weeks <$> path_nodes path).
Proof.
  intros (picks & Hn & Hw & _ & Hsub & _)%generate_learning_path_picks.
  split; [|done]. exists picks.*2. split.
  - rewrite Hn. eapply Forall2_impl; [apply nodes_of_Forall2|].
    simpl. tauto.
  - intros course. by apply picked_course_in_catalog.
Qed.

End PathClaims.

(** C9: with nothing loaded neither operation raises: the ranker returns
    the empty list when the table or the frame is missing, and the path
    builder returns an empty path of zero weeks when the frame is
    missing. *)
Theorem empty_catalog_not_an_error
    (cosine_similarity : embedding → list embedding → result (list Q))
    (argsort : list Q → list nat) (int : string → result Z)
    (table : option (list embedding)) (df : option (list Course.t))
    (v : embedding) (top_k : Z) (filters : option Filters.t)
    (learner_data : LearnerData) (career_goal : string)
    (target_level : option string) :
  content_based_recommendations cosine_similarity argsort
    {| course_embeddings := table; courses_df := None |} v top_k filters
    = Ok [] ∧
  content_based_recommendations cosine_similarity argsort
    {| course_embeddings := None; courses_df := df |} v top_k filters
    = Ok [] ∧
  generate_learning_path int
    {| course_embeddings := table; courses_df := None |}
    learner_data career_goal target_level
    = Ok {| path_nodes := []; total_duration_weeks := 0;
            target_nsqf_level := target_or_5 target_level |}.
Proof.
  split_and!.
  - by apply content_based_recommendations_unloaded; right.
  - by apply content_based_recommendations_unloaded; left.
  - reflexivity.
Qed.

(** ** The path builder on the shuffled catalog *)

Lemma shuffled_path_built :
  generate_learning_path int_decimal shuffled_engine beginner "Nurse" None
    = Ok shuffled_path.
Proof. vm_compute. reflexivity. Qed.

Lemma path_prerequisites_acquired_witness :
  ∃ courses : list Course.t,
    Forall2 (λ node course,
               Node.course_id node = Course.id course ∧
               Node.prerequisites_met node = true)
      (path_nodes shuffled_path) courses ∧
    (∀ course, course ∈ courses → course ∈ catalog shuffled_engine) ∧
    (∀ i course, courses !! i = Some course →
       (list_to_set (Course.prerequisites course) : gset string) ⊆
         acquired (list_to_set (prior_skills beginner)) (take i courses)).
Proof.
  apply (path_prerequisites_acquired int_decimal shuffled_engine beginner
           "Nurse" None shuffled_path).
  vm_compute. reflexivity.
Defined.

Lemma path_no_duplicates_and_ordered_witness :
  NoDup (Node.course_id <$> path_nodes shuffled_path) ∧
  Node.sequence_order <$> path_nodes shuffled_path =
    Z.of_nat <$> seq 1 (length (path_nodes shuffled_path)).
Proof.
  apply (path_no_duplicates_and_ordered int_decimal shuffled_engine beginner
           "Nurse" None shuffled_path).
  - vm_compute. reflexivity.
  - apply (bool_decide_unpack _). vm_compute. exact I.
Defined.

Lemma path_weeks_and_total_witness :
  (∃ courses : list Course.t,
     Forall2 (λ node course,
                Node.course_id node = Course.id course ∧
                Node.estimated_completion_weeks node =
                  (Course.duration_hours course `div` 10)%Z)
       (path_nodes shuffled_path) courses ∧
     (∀ course, course ∈ courses → course ∈ catalog shuffled_engine)) ∧
  total_duration_weeks shuffled_path =
    foldr Z.add 0%Z
      (Node.estimated_completion_weeks <$> path_nodes shuffled_path).
Proof.
  apply (path_weeks_and_total int_decimal shuffled_engine beginner
           "Nurse" None shuffled_path).
  vm_compute. reflexivity.
Defined.

(** ** The scenarios of the specification *)

Example scenario_path :
  generate_learning_path int_decimal scenario_path_engine beginner "goal" None
    = Ok {| path_nodes := [Node.mk 1 1 4 true; Node.mk 2 2 2 true];
            total_duration_weeks := 6;
            target_nsqf_level := "5" |}.
Proof. vm_compute. reflexivity. Qed.

Example scenario_rank_one_it_course :
  content_based_recommendations cosine_similarity_ref argsort_stable
    scenario_rank_engine demo_vector 2 it_only
    = Ok [ Item.mk 3 0%Q
             (Some "Relevant to your career goals. Covers: Python") ].
Proof. vm_compute. reflexivity. Qed.

Example scenario_without_explanations :
  recommend encode_unit cosine_similarity_ref argsort_stable
    demo_engine demo_learner 2 false
    = Ok {| recommendations := [Item.mk 2 1%Q None; Item.mk 1 1%Q None];
            model_version := "1.0.0" |}.
Proof. vm_compute. reflexivity. Qed.

(** ** Further properties of the ranker *)

Lemma py_slice_to_take {A} (k : Z) (l : list A) :
  ∃ m, py_slice_to k l = take m l.
Proof. unfold py_slice_to. destruct (k <? 0)%Z; by eexists. Qed.

Lemma excluded_inactive (f : Filters.t) (course : Course.t) :
  inactive f → excluded (Some f) course = false.
Proof.
  unfold inactive, excluded. intros [[-> | ->] [-> | ->]]; reflexivity.
Qed.

(** The scan reads the filters through [excluded] only. *)
Lemma scan_filters_ext df sims (f1 f2 : option Filters.t) top_k idxs recs :
  (∀ course, excluded f1 course = excluded f2 course) →
  scan df sims f1 top_k idxs recs = scan df sims f2 top_k idxs recs.
Proof.
  intros Hext. revert recs. induction idxs as [|idx rest IH]; intros recs;
    simpl; [done|].
  destruct (Z.of_nat (length recs) >=? top_k)%Z; [done|].
  destruct (df !! idx) as [course|]; [|done].
  rewrite (Hext course). destruct (excluded f2 course); [apply IH|].
  destruct (sims !! idx); [apply IH|done].
Qed.

(** The scan keeps every qualifying candidate of the prefix it reads. *)
Lemma scan_prefix df sims filters top_k idxs recs out :
  scan df sims filters top_k idxs recs = Ok out →
  ∃ n new,
    out = recs ++ new ∧
    Forall2 (built_from df sims filters)
      (filter (λ i, qualifies df filters i = true) (take n idxs)) new.
Proof.
  revert recs. induction idxs as [|idx rest IH]; intros recs H; simpl in H.
  - exists 0, []. rewrite app_nil_r. simplify_eq. split; [done|constructor].
  - destruct (Z.of_nat (length recs) >=? top_k)%Z.
    { exists 0, []. rewrite app_nil_r. simplify_eq. split; [done|constructor]. }
    destruct (df !! idx) as [course|] eqn:Hdf; [|done].
    destruct (excluded filters course) eqn:Hex.
    + apply IH in H as (n & new & -> & HF). exists (S n), new.
      split; [done|]. simpl.
      by rewrite filter_cons_False
        by (unfold qualifies; rewrite Hdf, Hex; done).
    + destruct (sims !! idx) as [score|] eqn:Hs; [|done].
      apply IH in H as (n & new & -> & HF).
      eexists (S n), (_ :: new). rewrite <- app_assoc. split; [done|]. simpl.
      rewrite filter_cons_True by (unfold qualifies; rewrite Hdf, Hex; done).
      constructor; [|done]. by exists course, score.
Qed.

Lemma filter_all {A} (P : A → Prop) `{!∀ x, Decision (P x)} (l : list A) :
  Forall P l → filter P l = l.
Proof.
  induction 1 as [|x l Hx _ IH]; [done|].
  rewrite filter_cons_True by done. by rewrite IH.
Qed.

(** The position in the frame determines the id when ids are unique. *)
Lemma unique_id_position (df : list Course.t) i j ci cj :
  NoDup (Course.id <$> df) →
  df !! i = Some ci → df !! j = Some cj → Course.id ci = Course.id cj → i = j.
Proof.
  intros Hnd Hi Hj Hid. eapply NoDup_lookup; [exact Hnd| |].
  - by rewrite list_lookup_fmap, Hi.
  - rewrite list_lookup_fmap, Hj. simpl. by rewrite Hid.
Qed.

Section RankerExtras.

Variable encode : string → embedding.
Variable cosine_similarity : embedding → list embedding → result (list Q).
Variable argsort : list Q → list nat.

Hypothesis argsort_sorted :
  ∀ a, StronglySorted (λ i j, (key a i <= key a j)%Q) (argsort a).
Hypothesis argsort_perm : ∀ a, argsort a ≡ₚ seq 0 (length a).
Hypothesis cosine_similarity_shape :
  ∀ v table sims,
    cosine_similarity v table = Ok sims → length sims = length table.

(** The positions the ranker selected: distinct, each giving one returned
    item, and no qualifying position left out has a larger similarity than
    a selected one. *)
Lemma ranking_selection self v top_k filters table df sims recs :
  course_embeddings self = Some table → courses_df self = Some df →
  cosine_similarity v table = Ok sims →
  content_based_recommendations cosine_similarity argsort
    self v top_k filters = Ok recs →
  ∃ sel : list nat,
    Forall2 (built_from df sims filters) sel recs ∧
    NoDup sel ∧
    ∀ i j, i ∈ sel → j < length sims →
           qualifies df filters j = true → j ∉ sel →
           (key sims j <= key sims i)%Q.
Proof.
  intros Ht Hd Hc H.
  rewrite (content_based_recommendations_loaded _ _ _ _ _ _ table df) in H
    by done.
  rewrite Hc in H. apply scan_prefix in H as (n & new & -> & HF).
  simpl in *. unfold top_indices in HF.
  destruct (py_slice_to_take (top_k * 2) (reverse (argsort sims)))
    as [m Hm].
  rewrite Hm, take_take in HF.
  set (L := reverse (argsort sims)) in *. set (p := n `min` m) in *.
  assert (L ≡ₚ seq 0 (length sims)) as HL
    by (unfold L; by rewrite reverse_Permutation).
  assert (NoDup L) as HndL by (rewrite HL; apply NoDup_seq).
  assert (StronglySorted (λ i j, (key sims j <= key sims i)%Q) L) as HsL
    by apply (StronglySorted_reverse _ _ (argsort_sorted sims)).
  eexists. split; [exact HF|]. split.
  - apply NoDup_filter. eapply sublist_NoDup; [exact HndL|apply sublist_take].
  - intros i j Hi Hj Hq Hnj.
    apply list_elem_of_filter in Hi as [_ Hi].
    assert (j ∈ drop p L) as Hjd.
    { assert (j ∈ L) as HjL by (rewrite HL; apply elem_of_seq; lia).
      rewrite <- (take_drop p L) in HjL.
      apply elem_of_app in HjL as [HjL|HjL]; [|done].
      exfalso. apply Hnj. by apply list_elem_of_filter. }
    rewrite <- (take_drop p L) in HsL.
    by apply (StronglySorted_app_1_elem_of _ _ _ _ _ HsL Hi Hjd).
Qed.

(** X1. With [top_k <= 0] the ranker returns the empty list; the one
    exception it can raise is that of [cosine_similarity]. *)
Theorem ranking_nonpositive_top_k self v top_k filters :
  (top_k ≤ 0)%Z →
  match content_based_recommendations cosine_similarity argsort
          self v top_k filters with
  | Ok recs => recs = []
  | Raise e =>
      ∃ table, course_embeddings self = Some table ∧
               cosine_similarity v table = Raise e
  end.
Proof.
  intros Hk. unfold content_based_recommendations.
  destruct (course_embeddings self) as [table|]; [|done].
  destruct (courses_df self) as [df|]; [|done].
  destruct (cosine_similarity v table) as [sims|e] eqn:Hc; simpl;
    [|by exists table].
  destruct (top_indices argsort sims top_k) as [|idx rest]; simpl; [done|].
  destruct (Z.geb_spec (Z.of_nat 0) top_k); simpl in *; [done|lia].
Qed.

(** X2. A [filters] dictionary whose values are all false (absent, 0 or
    the empty string) changes nothing: the ranker returns what it returns
    for [filters = None]. *)
Theorem ranking_ignores_inactive_filters self v top_k f :
  inactive f →
  content_based_recommendations cosine_similarity argsort
    self v top_k (Some f) =
  content_based_recommendations cosine_similarity argsort
    self v top_k None.
Proof.
  intros Hf. unfold content_based_recommendations.
  destruct (course_embeddings self) as [table|]; [|done].
  destruct (courses_df self) as [df|]; [|done].
  destruct (cosine_similarity v table) as [sims|e]; simpl; [|done].
  apply scan_filters_ext. intros course. by apply excluded_inactive.
Qed.

(** X3. Without filters, on a table with one row per course, the ranker
    returns min(top_k, N) items, N being the size of the catalog. *)
Theorem ranking_unfiltered_length self v top_k table df sims :
  course_embeddings self = Some table → courses_df self = Some df →
  length table = length df →
  cosine_similarity v table = Ok sims →
  (0 ≤ top_k)%Z →
  ∃ recs,
    content_based_recommendations cosine_similarity argsort
      self v top_k None = Ok recs ∧
    Z.of_nat (length recs) = Z.min top_k (Z.of_nat (length df)).
Proof.
  intros Ht Hd Hlen Hc Hk.
  rewrite (content_based_recommendations_loaded _ _ _ _ _ _ table df) by done.
  rewrite Hc. pose proof (cosine_similarity_shape _ _ _ Hc) as Hshape.
  assert (Forall (λ i, i < length df ∧ i < length sims)
            (top_indices argsort sims top_k)) as Hrange.
  { apply Forall_forall. intros i Hi. unfold top_indices in Hi.
    eapply elem_of_sublist in Hi; [|apply py_slice_to_sublist].
    rewrite elem_of_reverse, argsort_perm, elem_of_seq in Hi. lia. }
  destruct (scan_returns df sims None top_k _ [] Hrange) as [recs Hrecs].
  exists recs. split; [done|].
  apply scan_length in Hrecs; [|simpl; lia]. rewrite Hrecs. simpl.
  rewrite filter_all; cycle 1.
  { eapply Forall_impl; [exact Hrange|]. intros i [Hi _]. simpl in Hi.
    unfold qualifies. by destruct (lookup_lt_is_Some_2 df i Hi) as [c ->]. }
  unfold top_indices, py_slice_to.
  destruct (Z.ltb_spec (top_k * 2) 0); [lia|].
  rewrite length_take, length_reverse.
  rewrite (Permutation_length (argsort_perm sims)), length_seq. lia.
Qed.

(** X4. No qualifying course that is left out has a larger similarity
    than a returned one; the returned items come from distinct rows of
    the catalog. *)
Theorem ranking_omits_no_better_course
    self v top_k filters table df sims recs :
  course_embeddings self = Some table → courses_df self = Some df →
  cosine_similarity v table = Ok sims →
  content_based_recommendations cosine_similarity argsort
    self v top_k filters = Ok recs →
  ∃ sel : list nat,
    Forall2 (λ i item,
               ∃ course, df !! i = Some course ∧
                         Item.course_id item = Course.id course ∧
                         sims !! i = Some (Item.relevance_score item))
      sel recs ∧
    NoDup sel ∧
    ∀ i j si sj course,
      i ∈ sel → sims !! i = Some si →
      j ∉ sel → sims !! j = Some sj →
      df !! j = Some course → excluded filters course = false →
      (sj <= si)%Q.
Proof.
  intros Ht Hd Hc H.
  destruct (ranking_selection _ _ _ _ _ _ _ _ Ht Hd Hc H)
    as (sel & HF & Hnd & Hbest).
  exists sel. split_and!; [|done|].
  - eapply Forall2_impl; [exact HF|].
    intros i item (course & score & Hdf & Hs & _ & ->). by exists course.
  - intros i j si sj course Hi Hsi Hj Hsj Hdf Hex.
    rewrite <- (nth_lookup_Some _ _ 0%Q _ Hsi).
    rewrite <- (nth_lookup_Some _ _ 0%Q _ Hsj).
    apply Hbest; [done| |by unfold qualifies; rewrite Hdf, Hex|done].
    by eapply lookup_lt_Some.
Qed.

(** X5. When course ids are unique the ranker recommends no course
    twice. *)
Theorem ranking_no_duplicate_course self v top_k filters recs :
  NoDup (Course.id <$> catalog self) →
  content_based_recommendations cosine_similarity argsort
    self v top_k filters = Ok recs →
  NoDup (Item.course_id <$> recs).
Proof.
  intros Hids H.
  destruct (content_based_recommendations_inv _ _ _ _ _ _ _ H)
    as [->|(table & df & sims & Ht & Hd & Hc & _)]; [constructor|].
  destruct (ranking_selection _ _ _ _ _ _ _ _ Ht Hd Hc H)
    as (sel & HF & Hnd & _).
  unfold catalog in Hids. rewrite Hd in Hids. simpl in Hids.
  apply NoDup_alt. intros a b x Ha Hb.
  rewrite list_lookup_fmap in Ha, Hb.
  destruct (recs !! a) as [ia|] eqn:Hia; [|done].
  destruct (recs !! b) as [ib|] eqn:Hib; [|done].
  simpl in Ha, Hb.
  assert (Item.course_id ia = Item.course_id ib) as Hid by congruence.
  clear Ha Hb.
  destruct (Forall2_lookup_r _ _ _ _ _ HF Hia)
    as (i & Hi & ci & si & Hdi & _ & _ & ->).
  destruct (Forall2_lookup_r _ _ _ _ _ HF Hib)
    as (j & Hj & cj & sj & Hdj & _ & _ & ->).
  simpl in Hid.
  assert (j = i) as ->
    by (eapply unique_id_position; [exact Hids|exact Hdj|exact Hdi|done]).
  eapply NoDup_lookup; [exact Hnd|exact Hi|exact Hj].
Qed.

(** X6. When course ids are unique the [relevance_score] of an item is
    the similarity computed for the course whose id the item carries. *)
Theorem relevance_score_is_similarity
    self v top_k filters table df sims recs item j course :
  NoDup (Course.id <$> df) →
  course_embeddings self = Some table → courses_df self = Some df →
  cosine_similarity v table = Ok sims →
  content_based_recommendations cosine_similarity argsort
    self v top_k filters = Ok recs →
  item ∈ recs → df !! j = Some course →
  Course.id course = Item.course_id item →
  sims !! j = Some (Item.relevance_score item).
Proof.
  intros Hids Ht Hd Hc H Hin Hj Hid.
  rewrite (content_based_recommendations_loaded _ _ _ _ _ _ table df) in H
    by done.
  rewrite Hc in H. apply scan_selects in H as (sel & new & -> & _ & HF).
  simpl in Hin. apply list_elem_of_lookup in Hin as [n Hn].
  destruct (Forall2_lookup_r _ _ _ _ _ HF Hn)
    as (i & _ & ci & si & Hdi & Hsi & _ & ->).
  simpl in *. by rewrite (unique_id_position df j i course ci).
Qed.

(** X7. [recommend] answers with model version 1.0.0; every item carries
    an explanation when explanations are asked for and none otherwise. *)
Theorem recommend_explanations
    self learner_data top_k include_explanations r :
  recommend encode cosine_similarity argsort self learner_data
    top_k include_explanations = Ok r →
  model_version r = "1.0.0" ∧
  Forall (λ item, is_Some (Item.explanation item) ↔
                  include_explanations = true) (recommendations r).
Proof.
  unfold recommend. intros H.
  destruct (content_based_recommendations _ _ _ _ _ _) as [recs|e] eqn:Hr;
    [|done].
  cbn [mbind result_bind] in H. unfold mret, result_ret in H.
  injection H as <-. split; [done|]. cbn [recommendations].
  assert (Forall (λ item, is_Some (Item.explanation item)) recs) as Hall.
  { apply content_based_recommendations_inv in Hr
      as [->|(table & df & sims & _ & _ & _ & Hs)]; [constructor|].
    apply scan_selects in Hs as (sel & new & -> & _ & HF). simpl.
    apply Forall_forall. intros item Hin.
    apply list_elem_of_lookup in Hin as [n Hn].
    destruct (Forall2_lookup_r _ _ _ _ _ HF Hn)
      as (i & _ & ci & si & _ & _ & _ & ->). by eexists. }
  destruct include_explanations; simpl.
  - eapply Forall_impl; [exact Hall|]. simpl. tauto.
  - apply Forall_fmap, Forall_forall. intros item _. simpl.
    split; [by intros [? ?]|done].
Qed.

End RankerExtras.

(** ** Further properties of the path builder *)

Lemma iterrows_from_fst (start : nat) (df : list Course.t) :
  (iterrows_from start df).*1 = seq start (length df).
Proof.
  revert start. induction df as [|c df IH]; intros start; simpl; [done|].
  by rewrite IH.
Qed.

Lemma iterrows_from_length (start : nat) (df : list Course.t) :
  length (iterrows_from start df) = length df.
Proof. by rewrite <- (length_fmap snd), iterrows_from_snd. Qed.

(** More skills keep a course eligible. *)
Lemma eligible_mono (skills skills' : gset string) (course : Course.t) :
  skills ⊆ skills' → eligible skills course = true →
  eligible skills' course = true.
Proof.
  unfold eligible. intros Hsub H%bool_decide_eq_true.
  apply bool_decide_eq_true. set_solver.
Qed.

(** [drop] of the label of the first row removes that row alone when
    labels are unique. *)
Lemma drop_label_head (idx : nat) (course : Course.t)
    (rest : list (nat * Course.t)) :
  NoDup ((idx, course) :: rest).*1 →
  drop_label idx ((idx, course) :: rest) = rest.
Proof.
  rewrite fmap_cons. intros [Hnot Hnd]%NoDup_cons. unfold drop_label.
  rewrite filter_cons_False; [|simpl; intros Hne; apply Hne; reflexivity].
  apply filter_all, Forall_forall. intros row Hrow Heq. apply Hnot.
  simpl. rewrite <- Heq. by apply (list_elem_of_fmap_2 fst).
Qed.

(** When every remaining course is eligible the loop takes the rows in
    the order of the frame. *)
Lemma path_picks_all_eligible (n : nat) (st : PathState) :
  NoDup (st_available_courses st).*1 →
  Forall (λ row, eligible (st_current_skills st) row.2 = true)
    (st_available_courses st) →
  path_picks n st = take n (st_available_courses st).
Proof.
  revert st. induction n as [|n IH]; intros st Hnd Hall; simpl; [done|].
  destruct (st_available_courses st) as [|[idx course] rest] eqn:Hav.
  { by simpl. }
  apply Forall_cons in Hall as [Hc Hrest]. simpl in Hc.
  destruct (eligible_loop_first (st_current_skills st) [] rest idx course)
    as [more Hfirst]; [constructor|done|].
  cbn [app] in Hfirst. rewrite Hfirst. cbn [take]. f_equal.
  assert (st_available_courses (path_step st idx course) = rest) as Hstep.
  { simpl. rewrite Hav. by apply drop_label_head. }
  rewrite IH, Hstep; [done| |].
  - rewrite Hstep. rewrite fmap_cons in Hnd. by apply NoDup_cons in Hnd as [_ ?].
  - rewrite Hstep. eapply Forall_impl; [exact Hrest|]. simpl.
    intros row. apply eligible_mono. set_solver.
Qed.

(** The frame the loop leaves: the rows whose label was not chosen. *)
Lemma path_loop_available (n : nat) (st : PathState) :
  st_available_courses (path_loop n st) =
    filter (λ row, row.1 ∉ (path_picks n st).*1) (st_available_courses st).
Proof.
  revert st. induction n as [|n IH]; intros st; simpl.
  { symmetry. apply filter_all, Forall_forall. intros row _. apply not_elem_of_nil. }
  destruct (eligible_loop _ _ _) as [|[idx course] rest] eqn:E; simpl.
  { symmetry. apply filter_all, Forall_forall. intros row _. apply not_elem_of_nil. }
  rewrite IH. simpl. unfold drop_label. rewrite list_filter_filter.
  apply list_filter_iff. intros row. rewrite not_elem_of_cons. tauto.
Qed.

(** A loop that chose fewer rows than it was allowed ended on a frame
    with no eligible row. *)
Lemma path_loop_stalls (n : nat) (st : PathState) :
  length (path_picks n st) < n →
  eligible_loop (st_current_skills (path_loop n st))
    (st_available_courses (path_loop n st)) [] = [].
Proof.
  revert st. induction n as [|n IH]; intros st; simpl; [lia|].
  destruct (eligible_loop _ _ _) as [|[idx course] rest] eqn:E; simpl.
  - by intros _.
  - intros Hlt. apply IH. lia.
Qed.

(** ** The order of the path *)

Lemma path_picks_stalled (n : nat) (st : PathState) :
  eligible_loop (st_current_skills st) (st_available_courses st) [] = [] →
  path_picks n st = [].
Proof. intros H. destruct n; simpl; [done|]. by rewrite H. Qed.

(** The rows chosen in [a + b] iterations: those of the first [a], then
    those of [b] more from the state reached. *)
Lemma path_picks_add (a b : nat) (st : PathState) :
  path_picks (a + b) st = path_picks a st ++ path_picks b (path_loop a st).
Proof.
  revert st. induction a as [|a IH]; intros st; simpl; [done|].
  destruct (eligible_loop _ _ _) as [|[idx course] rest] eqn:E.
  - by rewrite path_picks_stalled.
  - simpl. f_equal. apply IH.
Qed.

(** The first [k] chosen rows are the rows chosen in [k] iterations. *)
Lemma path_picks_take (n k : nat) (st : PathState) :
  k ≤ length (path_picks n st) → k ≤ n →
  path_picks k st = take k (path_picks n st) ∧
  path_picks n st =
    take k (path_picks n st) ++ path_picks (n - k) (path_loop k st).
Proof.
  intros Hk Hn. replace n with (k + (n - k)) in Hk |- * by lia.
  replace (k + (n - k) - k) with (n - k) by lia.
  rewrite path_picks_add in Hk |- *.
  pose proof (path_picks_length k st) as Hle.
  destruct (decide (length (path_picks k st) = k)) as [Hlen|Hne].
  - by rewrite take_app_length' by done.
  - assert (path_picks (n - k) (path_loop k st) = []) as Hnil.
    { apply path_picks_stalled, path_loop_stalls. lia. }
    rewrite Hnil, app_nil_r in Hk. lia.
Qed.

Lemma nodes_of_lookup (order : Z) (courses : list Course.t) (k : nat)
    (course : Course.t) :
  courses !! k = Some course →
  nodes_of order courses !! k = Some (node_of (order + Z.of_nat k) course).
Proof.
  revert order k. induction courses as [|c cs IH]; intros order k H; [done|].
  destruct k as [|k].
  - injection H as ->. simpl. by rewrite Z.add_0_r.
  - change (nodes_of (order + 1) cs !! k =
            Some (node_of (order + Z.of_nat (S k)) course)).
    rewrite (IH (order + 1)%Z k H). do 2 f_equal. lia.
Qed.

(** Step [k] of the loop, read on the rows it chose: the skills are those
    acquired through the first [k] chosen courses, the remaining frame is
    the rows whose label was not chosen; the loop stops if none of them has
    its prerequisites within these skills, and otherwise chooses the first
    that has. *)
Lemma path_picks_next (n k : nat) (st : PathState) :
  k ≤ length (path_picks n st) → k < n →
  let picks := path_picks n st in
  let skills := acquired (st_current_skills st) (take k picks).*2 in
  let remaining :=
    filter (λ row, row.1 ∉ (take k picks).*1) (st_available_courses st) in
  (Forall (λ row, ¬ list_to_set (Course.prerequisites row.2) ⊆ skills)
     remaining → length picks = k) ∧
  (∀ pre row post,
     remaining = pre ++ row :: post →
     Forall (λ row, ¬ list_to_set (Course.prerequisites row.2) ⊆ skills) pre →
     list_to_set (Course.prerequisites row.2) ⊆ skills →
     picks !! k = Some row).
Proof.
  intros Hk Hn picks skills remaining.
  destruct (path_picks_take n k st Hk ltac:(lia)) as [Htake Hsplit].
  fold picks in Htake, Hsplit.
  assert (length (take k picks) = k) as Hlen
    by (rewrite length_take; unfold picks; lia).
  assert (st_current_skills (path_loop k st) = skills) as Hskills.
  { destruct (path_loop_trace k st) as (_ & _ & ->). by rewrite Htake. }
  assert (st_available_courses (path_loop k st) = remaining) as Hrem.
  { rewrite path_loop_available. by rewrite Htake. }
  assert (∃ m, n - k = S m) as [m Hm] by (exists (n - k - 1); lia).
  rewrite Hm in Hsplit. cbn [path_picks] in Hsplit.
  rewrite Hskills, Hrem in Hsplit. split.
  - intros Hnone.
    assert (eligible_loop skills remaining [] = []) as E.
    { apply eligible_loop_nil. eapply Forall_impl; [exact Hnone|].
      intros row Hrow. simpl in Hrow. by apply bool_decide_eq_false. }
    rewrite E, app_nil_r in Hsplit. by rewrite Hsplit.
  - intros pre [idx course] post Hav Hpre Hrow.
    destruct (eligible_loop_first skills pre post idx course) as [rest E].
    { eapply Forall_impl; [exact Hpre|].
      intros r Hr. simpl in Hr. by apply bool_decide_eq_false. }
    { by apply bool_decide_eq_true. }
    rewrite <- Hav in E. rewrite E in Hsplit. rewrite Hsplit.
    rewrite lookup_app_r by lia. by rewrite Hlen, Nat.sub_diag.
Qed.

Section PathOrder.

Variable int : string → result Z.

(** C7: the path is that of a sequence [picks] of rows of the
    level-selected frame [rows], and at every step [k] the loop reaches,
    with the skills acquired so far (the prior skills and the
    [skills_covered] of the first [k] chosen courses) and the remaining
    rows (those not chosen yet, in the order of the frame): if no
    remaining row has its prerequisites within these skills the path ends
    there, with [k] nodes; otherwise node [k] is the node of the first
    remaining row that has, whatever the rows after it. *)
Theorem path_takes_first_eligible
    self learner_data career_goal target_level df rows path :
  generate_learning_path int self learner_data career_goal target_level
    = Ok path →
  courses_df self = Some df →
  select_level int target_level (iterrows_from 0 df) = Ok rows →
  ∃ picks : list (nat * Course.t),
    path_nodes path = nodes_of 1 picks.*2 ∧
    length picks ≤ Nat.min 5 (length rows) ∧
    ∀ k, k ≤ length picks → k < Nat.min 5 (length rows) →
      let skills : gset string :=
        acquired (list_to_set (prior_skills learner_data)) (take k picks).*2 in
      let remaining := filter (λ row, row.1 ∉ (take k picks).*1) rows in
      (Forall (λ row, ¬ list_to_set (Course.prerequisites row.2) ⊆ skills)
         remaining →
       length (path_nodes path) = k) ∧
      (∀ pre row post,
         remaining = pre ++ row :: post →
         Forall (λ row, ¬ list_to_set (Course.prerequisites row.2) ⊆ skills)
           pre →
         list_to_set (Course.prerequisites row.2) ⊆ skills →
         picks !! k = Some row ∧
         path_nodes path !! k = Some (node_of (Z.of_nat k + 1) row.2)).
Proof.
  intros H Hdf Hsel.
  unfold generate_learning_path in H. rewrite Hdf, Hsel in H.
  cbn [mbind result_bind] in H. unfold mret, result_ret in H.
  remember (Nat.min 5 (length rows)) as n eqn:Hmin. clear Hmin.
  set (st0 := initial_state (list_to_set (prior_skills learner_data)) rows)
    in *.
  assert (path_nodes path = nodes_of 1 (path_picks n st0).*2) as Hnodes.
  { assert (path_nodes path = st_path_nodes (path_loop n st0)) as ->
      by (by injection H as <-).
    by destruct (path_loop_trace n st0) as (-> & _ & _). }
  clear H. exists (path_picks n st0).
  split_and!; [done|apply path_picks_length|].
  intros k Hk Hn skills remaining.
  destruct (path_picks_next n k st0 Hk Hn) as [Hstop Hnext]. split.
  - intros Hnone. rewrite Hnodes, nodes_of_length, length_fmap.
    by apply Hstop.
  - intros pre row post Hav Hpre Hrow.
    assert (path_picks n st0 !! k = Some row) as Hpick
      by (by eapply Hnext).
    split; [done|]. rewrite Hnodes.
    rewrite (nodes_of_lookup 1 _ k row.2)
      by (by rewrite list_lookup_fmap, Hpick).
    do 2 f_equal. lia.
Qed.

End PathOrder.

(** On the catalog of two courses, the second requiring the skill the
    first covers: after the first course the learner holds that skill, the
    one remaining row is the second course, and it is node 2. *)
Lemma path_takes_first_eligible_witness :
  path_nodes {| path_nodes := [Node.mk 1 1 4 true; Node.mk 2 2 2 true];
                total_duration_weeks := 6;
                target_nsqf_level := "5" |} !! 1
  = Some (Node.mk 2 2 2 true).
Proof.
  destruct (path_takes_first_eligible int_decimal scenario_path_engine
              beginner "goal" None
              [ Course.mk 1 "First" "" 1 "IT" 40 ["A"] [];
                Course.mk 2 "Second" "" 1 "IT" 20 ["B"] ["A"] ]
              [ (0, Course.mk 1 "First" "" 1 "IT" 40 ["A"] []);
                (1, Course.mk 2 "Second" "" 1 "IT" 20 ["B"] ["A"]) ]
              {| path_nodes := [Node.mk 1 1 4 true; Node.mk 2 2 2 true];
                 total_duration_weeks := 6;
                 target_nsqf_level := "5" |})
    as (picks & Hnodes & _ & Hstep).
  - vm_compute. reflexivity.
  - reflexivity.
  - reflexivity.
  - assert (length picks = 2) as Hlen.
    { apply (f_equal length) in Hnodes.
      rewrite nodes_of_length, length_fmap in Hnodes. by symmetry. }
    destruct (Hstep 0 ltac:(lia) ltac:(vm_compute; lia)) as [_ Hfirst].
    destruct (Hfirst [] (0, Course.mk 1 "First" "" 1 "IT" 40 ["A"] [])
                [(1, Course.mk 2 "Second" "" 1 "IT" 20 ["B"] ["A"])])
      as [Hpick _].
    + reflexivity.
    + constructor.
    + apply (bool_decide_unpack _). vm_compute. exact I.
    + destruct (Hstep 1 ltac:(lia) ltac:(vm_compute; lia)) as [_ Hsecond].
      rewrite (take_S_r picks 0 _ Hpick) in Hsecond.
      destruct (Hsecond [] (1, Course.mk 2 "Second" "" 1 "IT" 20 ["B"] ["A"])
                  []) as [_ Hnode].
      * reflexivity.
      * constructor.
      * apply (bool_decide_unpack _). vm_compute. exact I.
      * exact Hnode.
Defined.

Section PathExtras.

Variable int : string → result Z.

(** Unfolding [generate_learning_path] on a loaded catalog. *)
Lemma generate_learning_path_loaded
    self learner_data career_goal target_level df rows :
  courses_df self = Some df →
  select_level int target_level (iterrows_from 0 df) = Ok rows →
  generate_learning_path int self learner_data career_goal target_level =
    Ok (let st := path_loop (Nat.min 5 (length rows))
                    (initial_state (list_to_set (prior_skills learner_data))
                       rows) in
        {| path_nodes := st_path_nodes st;
           total_duration_weeks := st_total_weeks st;
           target_nsqf_level := target_or_5 target_level |}).
Proof.
  intros Hd Hs. unfold generate_learning_path. by rewrite Hd, Hs.
Qed.

(** The nodes of a returned path, from the level-selected frame [rows]. *)
Lemma generate_learning_path_nodes
    self learner_data career_goal target_level df rows path :
  courses_df self = Some df →
  select_level int target_level (iterrows_from 0 df) = Ok rows →
  generate_learning_path int self learner_data career_goal target_level
    = Ok path →
  path_nodes path =
    nodes_of 1
      (path_picks (Nat.min 5 (length rows))
         (initial_state (list_to_set (prior_skills learner_data)) rows)).*2.
Proof.
  intros Hd Hs H.
  rewrite (generate_learning_path_loaded _ _ _ _ df rows) in H by done.
  remember (Nat.min 5 (length rows)) as n eqn:Hn. clear Hn.
  remember (initial_state (list_to_set (prior_skills learner_data)) rows)
    as st0 eqn:Hst0.
  assert (path_nodes path = st_path_nodes (path_loop n st0)) as ->
    by (by injection H as <-).
  destruct (path_loop_trace n st0) as (-> & _ & _). by subst st0.
Qed.

(** X8. A path has at most five nodes, and no more nodes than the catalog
    has courses. *)
Theorem path_at_most_five self learner_data career_goal target_level path :
  generate_learning_path int self learner_data career_goal target_level
    = Ok path →
  length (path_nodes path) ≤ 5 ∧
  length (path_nodes path) ≤ length (catalog self).
Proof.
  intros H. unfold catalog.
  destruct (courses_df self) as [df|] eqn:Hd; cycle 1.
  { unfold generate_learning_path in H. rewrite Hd in H.
    injection H as <-. simpl. lia. }
  destruct (select_level int target_level (iterrows_from 0 df))
    as [rows|e] eqn:Hs; cycle 1.
  { unfold generate_learning_path in H. by rewrite Hd, Hs in H. }
  rewrite (generate_learning_path_nodes _ _ _ _ df rows path) by done.
  rewrite nodes_of_length, length_fmap.
  change (default [] (Some df)) with df.
  pose proof (path_picks_length (Nat.min 5 (length rows))
    (initial_state (list_to_set (prior_skills learner_data)) rows)) as Hlen.
  apply select_level_sublist, sublist_length in Hs.
  rewrite iterrows_from_length in Hs. lia.
Qed.

(** X9. With a target level that [int] reads as [lvl], every node is the
    node of a catalog course of level at most [lvl]. *)
Theorem path_within_target_level
    self learner_data career_goal s lvl path :
  s ≠ "" → int s = Ok lvl →
  generate_learning_path int self learner_data career_goal (Some s)
    = Ok path →
  ∃ courses : list Course.t,
    Forall2 (λ node course, Node.course_id node = Course.id course)
      (path_nodes path) courses ∧
    Forall (λ course, course ∈ catalog self ∧
                      (Course.nsqf_level course ≤ lvl)%Z) courses.
Proof.
  intros Hne Hint H. unfold catalog.
  destruct (courses_df self) as [df|] eqn:Hd; cycle 1.
  { unfold generate_learning_path in H. rewrite Hd in H.
    injection H as <-. exists []. split; constructor. }
  assert (truthy_str s = true) as Ht.
  { unfold truthy_str. apply negb_true_iff.
    destruct (String.eqb_spec s ""); congruence. }
  assert (select_level int (Some s) (iterrows_from 0 df) =
          Ok (filter (λ row, (Course.nsqf_level row.2 ≤ lvl)%Z)
                (iterrows_from 0 df))) as Hs
    by (unfold select_level; by rewrite Ht, Hint).
  rewrite (generate_learning_path_nodes _ _ _ _ _ _ path Hd Hs H).
  eexists. split.
  - eapply Forall2_impl; [apply nodes_of_Forall2|]. simpl. tauto.
  - apply Forall_fmap, Forall_forall. intros row Hrow%path_picks_available.
    simpl in Hrow. apply list_elem_of_filter in Hrow as [Hlvl Hrow].
    split; [|done]. simpl. rewrite <- (iterrows_from_snd 0 df).
    by apply list_elem_of_fmap_2.
Qed.

(** X10. A path that ends before the bound min(5, size of the frame) is
    maximal: every row of the frame that was not chosen has a
    prerequisite outside the skills acquired along the path. *)
Theorem path_is_maximal
    self learner_data career_goal target_level df rows path :
  courses_df self = Some df →
  select_level int target_level (iterrows_from 0 df) = Ok rows →
  generate_learning_path int self learner_data career_goal target_level
    = Ok path →
  length (path_nodes path) < Nat.min 5 (length rows) →
  ∃ picks : list (nat * Course.t),
    path_nodes path = nodes_of 1 picks.*2 ∧
    (∀ row, row ∈ picks → row ∈ rows) ∧
    ∀ row, row ∈ rows → row.1 ∉ picks.*1 →
      ¬ (list_to_set (Course.prerequisites row.2) : gset string) ⊆
          acquired (list_to_set (prior_skills learner_data)) picks.*2.
Proof.
  intros Hd Hs H Hlt.
  rewrite (generate_learning_path_nodes _ _ _ _ _ _ path Hd Hs H) in Hlt |- *.
  remember (Nat.min 5 (length rows)) as n eqn:Hn. clear Hn.
  set (st0 := initial_state (list_to_set (prior_skills learner_data)) rows)
    in *.
  rewrite nodes_of_length, length_fmap in Hlt.
  exists (path_picks n st0). split_and!; [done| |].
  - intros row Hrow. by apply path_picks_available in Hrow.
  - intros row Hrow Hnot Hsub.
    pose proof (path_loop_stalls n st0 Hlt) as Hstall.
    apply eligible_loop_nil in Hstall.
    rewrite path_loop_available in Hstall.
    destruct (path_loop_trace n st0) as (_ & _ & Hskills).
    rewrite Hskills in Hstall. rewrite Forall_forall in Hstall.
    specialize (Hstall row). unfold eligible in Hstall.
    rewrite bool_decide_eq_false in Hstall. apply Hstall; [|done].
    by apply list_elem_of_filter.
Qed.

(** X11. When the learner already has the prerequisites of every course,
    the path is made of the first five courses of the catalog, in the
    order of the catalog. *)
Theorem path_of_open_catalog self learner_data career_goal df :
  courses_df self = Some df →
  Forall (λ course,
            (list_to_set (Course.prerequisites course) : gset string) ⊆
              list_to_set (prior_skills learner_data)) df →
  ∃ path,
    generate_learning_path int self learner_data career_goal None = Ok path ∧
    path_nodes path = nodes_of 1 (take 5 df).
Proof.
  intros Hd Hall.
  assert (select_level int None (iterrows_from 0 df) =
          Ok (iterrows_from 0 df)) as Hs by done.
  eexists. split;
    [by apply (generate_learning_path_loaded _ _ _ _ df (iterrows_from 0 df))|].
  cbn zeta. cbn [path_nodes].
  remember (5 `min` length (iterrows_from 0 df)) as n eqn:Hn.
  destruct (path_loop_trace n
    (initial_state (list_to_set (prior_skills learner_data))
       (iterrows_from 0 df))) as (-> & _ & _).
  rewrite path_picks_all_eligible; simpl.
  - rewrite fmap_take, iterrows_from_snd. f_equal.
    rewrite Hn, iterrows_from_length.
    destruct (Nat.min_spec 5 (length df)) as [[? ->]|[? ->]]; [done|].
    rewrite !firstn_all2; [done|lia|lia].
  - rewrite iterrows_from_fst. apply NoDup_seq.
  - apply Forall_forall. intros row Hrow.
    apply bool_decide_eq_true. rewrite Forall_forall in Hall. apply Hall.
    rewrite <- (iterrows_from_snd 0 df). by apply list_elem_of_fmap_2.
Qed.

End PathExtras.

(** ** Skill normalisation *)

Section NormalizeFacts.

Variable lower : string → string.
Variable strip : string → string.

Lemma normalize_loop_fmap (skill_synonyms : gmap string string)
    (skills normalized : list string) :
  normalize_loop lower strip skill_synonyms skills normalized =
    normalized ++
    ((λ skill, default skill (skill_synonyms !! strip (lower skill)))
       <$> skills).
Proof.
  revert normalized. induction skills as [|skill rest IH]; intros normalized;
    simpl.
  - by rewrite app_nil_r.
  - rewrite IH. by rewrite <- app_assoc.
Qed.

(** X12. [normalize_skills] keeps the number and the order of the skills:
    skill number i becomes the synonym registered for its lower-cased,
    stripped form, and stays as it was typed (neither lower-cased nor
    stripped) when none is registered. *)
Theorem normalize_skills_pointwise (skill_synonyms : gmap string string)
    (skills : list string) :
  length (normalize_skills lower strip skill_synonyms skills)
    = length skills ∧
  ∀ i skill, skills !! i = Some skill →
    normalize_skills lower strip skill_synonyms skills !! i =
      Some (match skill_synonyms !! strip (lower skill) with
            | Some synonym => synonym
            | None => skill
            end).
Proof.
  unfold normalize_skills. rewrite normalize_loop_fmap. simpl. split.
  - apply length_fmap.
  - intros i skill Hi. rewrite list_lookup_fmap, Hi. simpl.
    by destruct (skill_synonyms !! strip (lower skill)).
Qed.

(** X13. With the empty synonym table, the one the engine is constructed
    with, [normalize_skills] returns its argument unchanged. *)
Theorem normalize_skills_empty_table (skills : list string) :
  normalize_skills lower strip ∅ skills = skills.
Proof.
  unfold normalize_skills. rewrite normalize_loop_fmap. simpl.
  rewrite <- (list_fmap_id skills) at 2. apply list_fmap_ext.
  intros i skill _. by rewrite lookup_empty.
Qed.

End NormalizeFacts.

Example normalize_skills_synonym :
  normalize_skills lower_ref strip_ref {[ "js" := "JavaScript" ]}
    ["  JS "; "Python "; "js"] = ["JavaScript"; "Python "; "JavaScript"].
Proof. vm_compute. reflexivity. Qed.

(** ** The model artifact *)

Section ArtifactFacts.

Variable encode : string → embedding.
Variable cosine_similarity : embedding → list embedding → result (list Q).
Variable argsort : list Q → list nat.
Variable int : string → result Z.

Hypothesis argsort_perm : ∀ a, argsort a ≡ₚ seq 0 (length a).
Hypothesis cosine_similarity_shape :
  ∀ v table sims,
    cosine_similarity v table = Ok sims → length sims = length table.

(** X14. An engine loaded from the artifact that
    [create_dummy_course_embeddings] writes holds the catalog it was given
    and one embedding per course, so the ranker on it raises nothing of
    its own: it returns a list, or the exception of
    [cosine_similarity]. *)
Theorem ranking_on_created_artifact courses_data v top_k filters :
  let self := load_models (create_dummy_course_embeddings encode courses_data) in
  courses_df self = Some courses_data ∧
  (∃ table, course_embeddings self = Some table ∧
            length table = length courses_data ∧
            match cosine_similarity v table with
            | Ok _ =>
                ∃ recs,
                  content_based_recommendations cosine_similarity argsort
                    self v top_k filters = Ok recs
            | Raise e =>
                content_based_recommendations cosine_similarity argsort
                  self v top_k filters = Raise e
            end).
Proof.
  simpl. split; [done|]. eexists. split; [done|].
  split; [apply length_fmap|].
  destruct (cosine_similarity v _) as [sims|e] eqn:Hc.
  - eapply (content_based_recommendations_returns cosine_similarity argsort
              argsort_perm cosine_similarity_shape); try done.
    simpl. apply length_fmap.
  - unfold content_based_recommendations. simpl. by rewrite Hc.
Qed.

(** X15. Unless the artifact is there, readable and holds both keys,
    the loaded engine has no catalog: the ranker returns the empty list
    and the path builder the empty path, whatever they are asked; this
    includes an artifact that holds the courses but not the embeddings. *)
Theorem incomplete_artifact_degrades
    file v top_k filters learner_data career_goal target_level :
  ¬ complete file →
  courses_df (load_models file) = None ∧
  content_based_recommendations cosine_similarity argsort
    (load_models file) v top_k filters = Ok [] ∧
  generate_learning_path int (load_models file)
    learner_data career_goal target_level
    = Ok {| path_nodes := []; total_duration_weeks := 0;
            target_nsqf_level := target_or_5 target_level |}.
Proof.
  intros Hinc.
  assert (courses_df (load_models file) = None) as Hd.
  { destruct file as [| |[[table|] [df|]]]; try done.
    exfalso. apply Hinc. by exists table, df. }
  split_and!; [done| |].
  - apply content_based_recommendations_unloaded. by right.
  - unfold generate_learning_path. by rewrite Hd.
Qed.

End ArtifactFacts.

(** ** Skill matching *)

Lemma size_list_to_set_le (l : list string) :
  size (list_to_set l : gset string) ≤ length l.
Proof.
  induction l as [|x l IH]; [by rewrite list_to_set_nil, size_empty|].
  rewrite list_to_set_cons. cbn [length].
  destruct (decide (x ∈ (list_to_set l : gset string))) as [Hin|Hnot].
  - replace ({[x]} ∪ list_to_set l : gset string) with
      (list_to_set l : gset string) by set_solver. lia.
  - rewrite size_union by set_solver. rewrite size_singleton. lia.
Qed.

(** Every entry of the table, and the default, lists distinct skills and
    at least one. *)
Lemma role_skills_NoDup (target_role : string) :
  NoDup (role_skills target_role) ∧ role_skills target_role ≠ [].
Proof.
  assert (map_Forall (λ _ l, NoDup l ∧ l ≠ []) required_skills_by_role)
    as Htable by (apply (bool_decide_unpack _); vm_compute; exact I).
  unfold role_skills.
  destruct (required_skills_by_role !! target_role) as [l|] eqn:E; simpl.
  - by apply (Htable target_role).
  - split; [|done]. apply (bool_decide_unpack _). vm_compute. exact I.
Qed.

(** X16. [match_skills] splits the skills the role requires in two: the
    matched ones, which the learner has, and the missing ones, which the
    learner has not; no skill is in both. *)
Theorem match_skills_partition (learner_skills : list string)
    (target_role : string) :
  let m := match_skills learner_skills target_role in
  matched_skills m ∪ missing_skills m = list_to_set (required_skills m) ∧
  matched_skills m ## missing_skills m ∧
  (∀ skill, skill ∈ matched_skills m ↔
            skill ∈ learner_skills ∧ skill ∈ required_skills m) ∧
  (∀ skill, skill ∈ missing_skills m ↔
            skill ∈ required_skills m ∧ skill ∉ learner_skills).
Proof.
  simpl. split_and!.
  - apply set_eq. intros skill.
    rewrite elem_of_union, elem_of_intersection, elem_of_difference.
    destruct (decide (skill ∈ (list_to_set learner_skills : gset string)));
      tauto.
  - set_solver.
  - intros skill. rewrite elem_of_intersection, !elem_of_list_to_set. tauto.
  - intros skill. rewrite elem_of_difference, !elem_of_list_to_set. tauto.
Qed.

(** Sizes of the matched part of a required set of [n + 1] skills. *)
Lemma score_facts (L R : gset string) (n : nat) :
  size R = S n →
  size (L ∩ R) ≤ S n ∧
  (size (L ∩ R) = S n ↔ R ∖ L = ∅) ∧
  (size (L ∩ R) = 0 ↔ L ∩ R = ∅).
Proof.
  intros HR.
  assert (size (L ∩ R) ≤ size R) as Hle by (apply subseteq_size; set_solver).
  split_and!; [lia| |].
  - split.
    + intros Heq.
      assert (L ∩ R = R) as Hall
        by (apply set_subseteq_size_eq; [set_solver|lia]).
      apply set_eq. intros x. rewrite elem_of_difference, <- Hall.
      rewrite elem_of_intersection. split; [tauto|].
      intros Hx. by apply not_elem_of_empty in Hx.
    + intros Hmiss. replace (L ∩ R) with R; [done|].
      apply set_eq. intros x. rewrite elem_of_intersection.
      split; [|tauto]. intros Hx. split; [|done].
      destruct (decide (x ∈ L)) as [|Hn]; [done|].
      assert (x ∈ R ∖ L) as Hd by (by apply elem_of_difference).
      rewrite Hmiss in Hd. by apply not_elem_of_empty in Hd.
  - split.
    + intros Heq. by apply size_empty_inv, leibniz_equiv in Heq.
    + intros ->. apply size_empty.
Qed.

(** X17. The match score lies between 0 and 1; it is 1 exactly when no
    required skill is missing and 0 exactly when none is matched. *)
Theorem match_score_range (learner_skills : list string)
    (target_role : string) :
  let m := match_skills learner_skills target_role in
  (0 <= match_score m)%Q ∧ (match_score m <= 1)%Q ∧
  ((match_score m == 1)%Q ↔ missing_skills m = ∅) ∧
  ((match_score m == 0)%Q ↔ matched_skills m = ∅).
Proof.
  simpl. destruct (role_skills_NoDup target_role) as [Hnd Hne].
  pose proof (size_list_to_set (C := gset string) _ Hnd) as HR.
  unfold score_of.
  destruct (role_skills target_role) as [|skill rest]; [done|].
  cbn [length] in HR.
  destruct (score_facts (list_to_set learner_skills)
              (list_to_set (skill :: rest)) (length rest) HR)
    as (Hle & Hone & Hzero).
  unfold Qle, Qeq. cbn [Qnum Qden]. rewrite !Zpos_P_of_succ_nat.
  split_and!; [lia|lia| |].
  - rewrite <- Hone. lia.
  - rewrite <- Hzero. lia.
Qed.

(** ** The backend routes *)

Lemma filter_fmap_list {A B} (f : A → B) (P : B → Prop)
    `{!∀ y, Decision (P y)} (l : list A) :
  filter P (f <$> l) = f <$> filter (λ x, P (f x)) l.
Proof.
  induction l as [|x l IH]; [done|]. rewrite fmap_cons.
  destruct (decide (P (f x))) as [Hx|Hx].
  - rewrite !filter_cons_True by done. by rewrite fmap_cons, IH.
  - by rewrite !filter_cons_False by done.
Qed.

Lemma filter_iff_in {A} (P Q : A → Prop)
    `{!∀ x, Decision (P x)} `{!∀ x, Decision (Q x)} (l : list A) :
  (∀ x, x ∈ l → P x ↔ Q x) → filter P l = filter Q l.
Proof.
  induction l as [|x l IH]; intros Hl; [done|].
  assert (filter P l = filter Q l) as Heq.
  { apply IH. intros y Hy. apply Hl. by apply list_elem_of_further. }
  destruct (decide (P x)) as [Hx|Hx].
  - rewrite !filter_cons_True; [by rewrite Heq| |done].
    apply Hl; [apply list_elem_of_here|done].
  - rewrite !filter_cons_False; [done| |done].
    intros HQ. apply Hx, Hl; [apply list_elem_of_here|done].
Qed.

Lemma Forall2_fmap_eq {A B C} (f : A → C) (g : B → C)
    (l : list A) (k : list B) :
  Forall2 (λ x y, f x = g y) l k → f <$> l = g <$> k.
Proof. induction 1 as [|x y l k Hxy _ IH]; [done|]. simpl. by f_equal. Qed.

(** The dictionary built from the rows of a query. *)
Lemma course_map_lookup_Some (rows : list CourseDB.t)
    (m : gmap Z CourseDB.t) (i : Z) (course : CourseDB.t) :
  foldl (λ m course, <[CourseDB.id course := course]> m) m rows !! i
    = Some course →
  m !! i = Some course ∨ (course ∈ rows ∧ CourseDB.id course = i).
Proof.
  revert m. induction rows as [|row rows IH]; intros m; simpl; [by left|].
  intros [H|[Hin Hid]]%IH.
  - destruct (decide (CourseDB.id row = i)) as [<-|Hne].
    + rewrite lookup_insert_eq in H. simplify_eq. right.
      split; [apply list_elem_of_here|done].
    + rewrite lookup_insert_ne in H by done. by left.
  - right. split; [by apply list_elem_of_further|done].
Qed.

Lemma course_map_lookup_is_Some (rows : list CourseDB.t)
    (m : gmap Z CourseDB.t) (i : Z) :
  is_Some (foldl (λ m course, <[CourseDB.id course := course]> m) m rows !! i)
  ↔ is_Some (m !! i) ∨ i ∈ CourseDB.id <$> rows.
Proof.
  revert m. induction rows as [|row rows IH]; intros m; simpl.
  - split; [by left|]. intros [?|Hin]; [done|]. by apply elem_of_nil in Hin.
  - rewrite IH, elem_of_cons.
    destruct (decide (CourseDB.id row = i)) as [<-|Hne].
    + rewrite lookup_insert_eq. split; [intros _|]; eauto.
    + rewrite lookup_insert_ne by done. split; [tauto|].
      intros [?|[?|?]]; [tauto|congruence|tauto].
Qed.

(** A course is found in the dictionary exactly when its id is asked for
    and is the id of a row of the table. *)
Lemma course_map_of_is_Some (courses : list CourseDB.t) (ids : list Z) (i : Z) :
  is_Some (course_map_of courses ids !! i)
  ↔ i ∈ ids ∧ i ∈ CourseDB.id <$> courses.
Proof.
  unfold course_map_of. rewrite course_map_lookup_is_Some, lookup_empty.
  rewrite list_elem_of_fmap. split.
  - intros [[? ?]|(course & -> & [Hid Hin]%list_elem_of_filter)]; [done|].
    split; [done|]. by apply list_elem_of_fmap_2.
  - intros [Hi (course & -> & Hin)%list_elem_of_fmap]. right.
    exists course. split; [done|]. by apply list_elem_of_filter.
Qed.

Lemma course_map_of_Some (courses : list CourseDB.t) (ids : list Z) (i : Z)
    (course : CourseDB.t) :
  course_map_of courses ids !! i = Some course →
  course ∈ courses ∧ CourseDB.id course = i.
Proof.
  unfold course_map_of.
  intros [H|[Hin Hid]]%course_map_lookup_Some; [by rewrite lookup_empty in H|].
  by apply list_elem_of_filter in Hin as [_ ?].
Qed.

(** What a constructed [RecommendationItem] holds. *)
Lemma RecommendationItem_Ok course score explanation item :
  RecommendationItem course score explanation = Ok item →
  RecItem.course_id item = CourseDB.id course ∧
  RecItem.relevance_score item = score ∧
  RecItem.explanation item = explanation ∧
  (0 <= score)%Q ∧ (score <= 1)%Q ∧
  CourseDB.nsqf_level course ∈ nsqf_values.
Proof.
  unfold RecommendationItem, NSQFLevel. intros H.
  destruct (bool_decide (CourseDB.nsqf_level course ∈ nsqf_values)) eqn:Hl;
    [|done].
  apply bool_decide_eq_true in Hl. cbn [mbind result_bind] in H.
  destruct (Qle_bool 0 score) eqn:H0; [|done].
  destruct (Qle_bool score 1) eqn:H1; [|done].
  apply Qle_bool_iff in H0, H1. simpl in H. by simplify_eq.
Qed.

(** The only exception the construction raises is [ValueError]. *)
Lemma RecommendationItem_Raise course score explanation e :
  RecommendationItem course score explanation = Raise e → e = ValueError.
Proof.
  unfold RecommendationItem, NSQFLevel. intros H.
  destruct (bool_decide _); cbn [mbind result_bind] in H; [|by simplify_eq].
  destruct (_ && _); by simplify_eq.
Qed.

Lemma merge_loop_Ok course_map include_explanations recs acc out :
  merge_loop course_map include_explanations recs acc = Ok out →
  ∃ new, out = acc ++ new ∧
    Forall2 (λ rec item,
               ∃ course, course_map !! rec_course_id rec = Some course ∧
                 RecommendationItem course
                   (default 0.5%Q (rec_relevance_score rec))
                   (if include_explanations then rec_explanation rec
                    else None) = Ok item)
      (filter (λ rec, is_Some (course_map !! rec_course_id rec)) recs) new.
Proof.
  revert acc. induction recs as [|rec rest IH]; intros acc H; simpl in H.
  - exists []. rewrite app_nil_r. simplify_eq. split; [done|constructor].
  - destruct (course_map !! rec_course_id rec) as [course|] eqn:Hc.
    + destruct (RecommendationItem course _ _) as [item|e] eqn:Hi; [|done].
      cbn [mbind result_bind] in H.
      apply IH in H as (new & -> & HF). exists (item :: new).
      rewrite <- app_assoc. split; [done|].
      rewrite filter_cons_True by (by rewrite Hc).
      constructor; [|done]. by exists course.
    + apply IH in H as (new & -> & HF). exists new. split; [done|].
      by rewrite filter_cons_False by (rewrite Hc; by intros [? ?]).
Qed.

Lemma merge_loop_Raise course_map include_explanations recs acc e :
  merge_loop course_map include_explanations recs acc = Raise e →
  e = ValueError.
Proof.
  revert acc. induction recs as [|rec rest IH]; intros acc H; simpl in H;
    [done|].
  destruct (course_map !! rec_course_id rec) as [course|]; [|by eapply IH].
  destruct (RecommendationItem course _ _) as [item|e'] eqn:Hi;
    cbn [mbind result_bind] in H; [by eapply IH|].
  simplify_eq. by eapply RecommendationItem_Raise.
Qed.

Lemma fallback_loop_Ok include_explanations courses acc out :
  fallback_loop include_explanations courses acc = Ok out →
  ∃ new, out = acc ++ new ∧
    Forall2 (λ course item,
               RecommendationItem course 0.75
                 (if include_explanations
                  then Some "Recommended based on your profile" else None)
               = Ok item) courses new.
Proof.
  revert acc. induction courses as [|course rest IH]; intros acc H;
    simpl in H.
  - exists []. rewrite app_nil_r. simplify_eq. split; [done|constructor].
  - destruct (RecommendationItem course _ _) as [item|e] eqn:Hi; [|done].
    cbn [mbind result_bind] in H.
    apply IH in H as (new & -> & HF). exists (item :: new).
    rewrite <- app_assoc. split; [done|]. by constructor.
Qed.

Section BackendRecommendations.

Variables (top_k : Z) (include_explanations : bool) (user_id : Z).
Variable courses : list CourseDB.t.

Hypothesis top_k_valid : (1 ≤ top_k ≤ 50)%Z.

Lemma get_recommendations_valid ml :
  get_recommendations top_k include_explanations (Some user_id) true ml
    courses =
  match ml with
  | None =>
      respond (
        recommendations ←
          fallback_loop include_explanations
            (active_courses courses (Z.to_nat top_k)) [];
        Ok {| rr_learner_id := user_id;
              rr_recommendations := recommendations;
              rr_model_version := "1.0.0-fallback" |})
  | Some answer =>
      respond (
        recommendations ←
          merge_loop
            (course_map_of courses (rec_course_id <$> ml_recommendations answer))
            include_explanations (ml_recommendations answer) [];
        Ok {| rr_learner_id := user_id;
              rr_recommendations := recommendations;
              rr_model_version := default "1.0.0" (ml_model_version answer) |})
  end.
Proof.
  unfold get_recommendations.
  destruct (Z.leb_spec 1 top_k); [|lia].
  destruct (Z.leb_spec top_k 50); [|lia]. done.
Qed.

(** X18. On an answer of the ML service the route keeps the order of
    the service: the ids it returns are those of the service that are ids
    of rows of the table, in the same order; every score lies in [0, 1],
    and no item carries an explanation unless explanations are asked
    for. *)
Theorem backend_recommendations_in_ml_order answer body :
  get_recommendations top_k include_explanations (Some user_id) true
    (Some answer) courses = Response body →
  RecItem.course_id <$> rr_recommendations body =
    filter (λ i, i ∈ CourseDB.id <$> courses)
      (rec_course_id <$> ml_recommendations answer) ∧
  rr_model_version body = default "1.0.0" (ml_model_version answer) ∧
  Forall (λ item, (0 <= RecItem.relevance_score item)%Q ∧
                  (RecItem.relevance_score item <= 1)%Q ∧
                  (include_explanations = false →
                   RecItem.explanation item = None))
    (rr_recommendations body).
Proof.
  rewrite get_recommendations_valid. intros H.
  destruct (merge_loop _ _ _ _) as [out|e] eqn:Hm; [|done].
  simpl in H. injection H as <-. cbn [rr_recommendations rr_model_version].
  apply merge_loop_Ok in Hm as (new & -> & HF). simpl.
  split_and!; [|done|].
  - rewrite filter_fmap_list. symmetry.
    rewrite (filter_iff_in _
      (λ rec, is_Some (course_map_of courses
         (rec_course_id <$> ml_recommendations answer)
         !! rec_course_id rec))); cycle 1.
    { intros rec Hin. rewrite course_map_of_is_Some. split; [|tauto].
      intros Hid. split; [|done]. by apply list_elem_of_fmap_2. }
    apply Forall2_fmap_eq. eapply Forall2_impl; [exact HF|].
    intros rec item (course & Hc & Hi). simpl in *.
    apply RecommendationItem_Ok in Hi as (-> & _).
    by apply course_map_of_Some in Hc as [_ ?].
  - apply Forall_forall. intros item Hin.
    apply list_elem_of_lookup in Hin as [n Hn].
    destruct (Forall2_lookup_r _ _ _ _ _ HF Hn)
      as (rec & _ & course & _ & Hi).
    apply RecommendationItem_Ok in Hi as (_ & -> & -> & H0 & H1 & _).
    split_and!; [done|done|]. by intros ->.
Qed.

(** X19. A score of the ML service outside [0, 1], for a course of the
    table, makes the route fail with an unhandled [ValueError]: no
    response is built. *)
Theorem backend_rejects_score_out_of_range answer rec score :
  rec ∈ ml_recommendations answer →
  rec_relevance_score rec = Some score →
  ¬ ((0 <= score)%Q ∧ (score <= 1)%Q) →
  rec_course_id rec ∈ CourseDB.id <$> courses →
  get_recommendations top_k include_explanations (Some user_id) true
    (Some answer) courses = Unhandled ValueError.
Proof.
  intros Hrec Hscore Hout Hin. rewrite get_recommendations_valid.
  destruct (merge_loop _ _ _ _) as [out|e] eqn:Hm; simpl.
  - exfalso. apply merge_loop_Ok in Hm as (new & _ & HF).
    assert (rec ∈ filter
              (λ rec, is_Some (course_map_of courses
                 (rec_course_id <$> ml_recommendations answer)
                 !! rec_course_id rec)) (ml_recommendations answer)) as Hf.
    { apply list_elem_of_filter. split; [|done].
      apply course_map_of_is_Some. split; [|done].
      by apply list_elem_of_fmap_2. }
    apply list_elem_of_lookup in Hf as [n Hn].
    destruct (Forall2_lookup_l _ _ _ _ _ HF Hn)
      as (item & _ & course & _ & Hi).
    rewrite Hscore in Hi. simpl in Hi.
    apply RecommendationItem_Ok in Hi as (_ & _ & _ & H0 & H1 & _). tauto.
  - by rewrite (merge_loop_Raise _ _ _ _ _ Hm).
Qed.

(** X20. When the ML service cannot be reached the route answers from
    the table alone: the first [top_k] active courses, each with the
    score 0.75, under the model version 1.0.0-fallback. *)
Theorem backend_fallback_recommendations body :
  get_recommendations top_k include_explanations (Some user_id) true None
    courses = Response body →
  rr_model_version body = "1.0.0-fallback" ∧
  RecItem.course_id <$> rr_recommendations body =
    CourseDB.id <$> active_courses courses (Z.to_nat top_k) ∧
  (Z.of_nat (length (rr_recommendations body)) ≤ top_k)%Z ∧
  Forall (λ item, RecItem.relevance_score item = 0.75%Q)
    (rr_recommendations body) ∧
  Forall (λ course, CourseDB.is_active course = true)
    (active_courses courses (Z.to_nat top_k)).
Proof.
  rewrite get_recommendations_valid. intros H.
  destruct (fallback_loop _ _ _) as [out|e] eqn:Hf; [|done].
  simpl in H. injection H as <-. cbn [rr_recommendations rr_model_version].
  apply fallback_loop_Ok in Hf as (new & -> & HF). simpl.
  split_and!; [done| | | |].
  - symmetry. apply Forall2_fmap_eq. eapply Forall2_impl; [exact HF|].
    intros course item Hi. simpl in Hi.
    by apply RecommendationItem_Ok in Hi as (-> & _).
  - rewrite <- (Forall2_length _ _ _ HF). unfold active_courses.
    rewrite length_take. lia.
  - apply Forall_forall. intros item Hin.
    apply list_elem_of_lookup in Hin as [n Hn].
    destruct (Forall2_lookup_r _ _ _ _ _ HF Hn) as (course & _ & Hi).
    by apply RecommendationItem_Ok in Hi as (_ & -> & _).
  - unfold active_courses. apply Forall_take, Forall_forall.
    intros course Hin. by apply list_elem_of_filter in Hin as [? _].
Qed.

End BackendRecommendations.

Lemma merge_loop_returns course_map include_explanations recs acc :
  (∀ i course, course_map !! i = Some course →
     CourseDB.nsqf_level course ∈ nsqf_values) →
  Forall (λ rec, (0 <= default 0.5 (rec_relevance_score rec))%Q ∧
                 (default 0.5 (rec_relevance_score rec) <= 1)%Q) recs →
  ∃ out, merge_loop course_map include_explanations recs acc = Ok out.
Proof.
  intros Hlevel Hrecs. revert acc.
  induction Hrecs as [|rec rest [H0 H1] _ IH]; intros acc; simpl; [eauto|].
  destruct (course_map !! rec_course_id rec) as [course|] eqn:Hc; [|done].
  unfold RecommendationItem, NSQFLevel.
  rewrite bool_decide_eq_true_2 by (by eapply Hlevel).
  cbn [mbind result_bind].
  apply Qle_bool_iff in H0, H1. rewrite H0, H1. simpl. apply IH.
Qed.

(** X21. The route answers whenever the table holds levels of the
    enumeration only and every score of the ML service lies in [0, 1]. *)
Theorem backend_recommendations_respond top_k include_explanations user_id
    answer courses :
  (1 ≤ top_k ≤ 50)%Z →
  Forall (λ course, CourseDB.nsqf_level course ∈ nsqf_values) courses →
  Forall (λ rec, (0 <= default 0.5 (rec_relevance_score rec))%Q ∧
                 (default 0.5 (rec_relevance_score rec) <= 1)%Q)
    (ml_recommendations answer) →
  ∃ body,
    get_recommendations top_k include_explanations (Some user_id) true
      (Some answer) courses = Response body.
Proof.
  intros Hk Hlevels Hscores. rewrite get_recommendations_valid by done.
  destruct (merge_loop_returns
    (course_map_of courses (rec_course_id <$> ml_recommendations answer))
    include_explanations (ml_recommendations answer) []) as [out Hout];
    [|done|].
  - intros i course [Hin _]%course_map_of_Some.
    by eapply Forall_forall in Hlevels.
  - rewrite Hout. simpl. eauto.
Qed.

(** *** Learning path *)

Lemma LearningPathNode_Ok course sequence_order weeks met item :
  LearningPathNode course sequence_order weeks met = Ok item →
  PathItem.course_id item = CourseDB.id course ∧
  PathItem.course_title item = CourseDB.title course ∧
  PathItem.nsqf_level item = CourseDB.nsqf_level course ∧
  PathItem.sequence_order item = sequence_order ∧
  PathItem.estimated_completion_weeks item = weeks ∧
  PathItem.prerequisites_met item = met.
Proof.
  unfold LearningPathNode, NSQFLevel. intros H.
  destruct (bool_decide _); cbn [mbind result_bind] in H; [|done].
  by simplify_eq.
Qed.

Lemma fallback_path_loop_Ok idx courses acc out :
  fallback_path_loop idx courses acc = Ok out →
  ∃ new, out = acc ++ new ∧ length new = length courses ∧
    ∀ n course item, courses !! n = Some course → new !! n = Some item →
      LearningPathNode course (idx + Z.of_nat n + 1)
        (CourseDB.duration_hours course `div` 10) true = Ok item.
Proof.
  revert idx acc. induction courses as [|course rest IH]; intros idx acc H;
    simpl in H.
  - exists []. rewrite app_nil_r. simplify_eq. by split_and!.
  - destruct (LearningPathNode course _ _ _) as [item|e] eqn:Hi; [|done].
    cbn [mbind result_bind] in H.
    apply IH in H as (new & -> & Hlen & Hnew). exists (item :: new).
    rewrite <- app_assoc. split_and!; [done|simpl; by f_equal|].
    intros [|n] course' item' Hc Hn.
    + injection Hc as <-. injection Hn as <-.
      by rewrite Z.add_0_r.
    + specialize (Hnew n course' item' Hc Hn).
      by replace (idx + Z.of_nat (S n) + 1)%Z
        with (idx + 1 + Z.of_nat n + 1)%Z by lia.
Qed.

Lemma path_merge_loop_Ok course_map nodes acc out :
  path_merge_loop course_map nodes acc = Ok out →
  ∃ new, out = acc ++ new ∧
    Forall2 (λ node item,
               ∃ course, course_map !! node_course_id node = Some course ∧
                 LearningPathNode course
                   (default 0%Z (node_sequence_order node))
                   (default 4%Z (node_estimated_completion_weeks node))
                   (default true (node_prerequisites_met node)) = Ok item)
      (filter (λ node, is_Some (course_map !! node_course_id node)) nodes)
      new.
Proof.
  revert acc. induction nodes as [|node rest IH]; intros acc H; simpl in H.
  - exists []. rewrite app_nil_r. simplify_eq. split; [done|constructor].
  - destruct (course_map !! node_course_id node) as [course|] eqn:Hc.
    + destruct (LearningPathNode course _ _ _) as [item|e] eqn:Hi; [|done].
      cbn [mbind result_bind] in H.
      apply IH in H as (new & -> & HF). exists (item :: new).
      rewrite <- app_assoc. split; [done|].
      rewrite filter_cons_True by (by rewrite Hc).
      constructor; [|done]. by exists course.
    + apply IH in H as (new & -> & HF). exists new. split; [done|].
      by rewrite filter_cons_False by (rewrite Hc; by intros [? ?]).
Qed.

Lemma foldl_add_acc (acc : Z) (l : list Z) :
  foldl Z.add acc l = (acc + foldl Z.add 0 l)%Z.
Proof.
  revert acc. induction l as [|x l IH]; intros acc; simpl; [lia|].
  rewrite (IH (acc + x)%Z), (IH (0 + x)%Z). lia.
Qed.

(** X22. When the ML service cannot be reached the learning path is
    read off the table: at most five nodes, one per active course in the
    order of the table, numbered from 1, each lasting the whole tens of
    hours of its course, and the total is the sum over the nodes. *)
Theorem backend_fallback_path career_goal target_level user_id courses body :
  get_learning_path career_goal target_level (Some user_id) true None courses
    = Response body →
  PathItem.course_id <$> lp_path_nodes body =
    CourseDB.id <$> active_courses courses 5 ∧
  (length (lp_path_nodes body) ≤ 5)%nat ∧
  (∀ n item, lp_path_nodes body !! n = Some item →
     PathItem.sequence_order item = (Z.of_nat n + 1)%Z ∧
     PathItem.prerequisites_met item = true ∧
     ∃ course, active_courses courses 5 !! n = Some course ∧
       PathItem.estimated_completion_weeks item =
         (CourseDB.duration_hours course `div` 10)%Z) ∧
  lp_total_duration_weeks body =
    foldr Z.add 0%Z
      ((λ course, CourseDB.duration_hours course `div` 10)%Z
         <$> active_courses courses 5) ∧
  lp_target_nsqf_level body = default "5" target_level.
Proof.
  unfold get_learning_path. intros H.
  destruct (valid_level target_level); [|done]. simpl in H.
  destruct (fallback_path_loop _ _ _) as [out|e] eqn:Hf; [|done].
  simpl in H. injection H as <-.
  cbn [lp_path_nodes lp_total_duration_weeks lp_target_nsqf_level].
  apply fallback_path_loop_Ok in Hf as (new & -> & Hlen & Hnew). simpl.
  assert (Forall2 (λ course item,
            PathItem.course_id item = CourseDB.id course ∧
            PathItem.estimated_completion_weeks item =
              (CourseDB.duration_hours course `div` 10)%Z)
            (active_courses courses 5) new) as HF.
  { apply Forall2_same_length_lookup. split; [done|].
    intros n course item Hc Hn.
    by destruct (LearningPathNode_Ok _ _ _ _ _ (Hnew n course item Hc Hn))
      as (? & _ & _ & _ & ? & _). }
  split_and!.
  - symmetry. apply Forall2_fmap_eq. eapply Forall2_impl; [exact HF|].
    by intros course item [-> _].
  - rewrite Hlen. unfold active_courses. rewrite length_take. lia.
  - intros n item Hn.
    destruct (Forall2_lookup_r _ _ _ _ _ HF Hn) as (course & Hc & _).
    destruct (LearningPathNode_Ok _ _ _ _ _ (Hnew n course item Hc Hn))
      as (_ & _ & _ & Hs & Hw & Hm).
    split_and!; [by rewrite Hs, Z.add_0_l|done|]. by exists course.
  - unfold sum_weeks. clear Hnew Hlen.
    induction HF as [|course item l k [_ Hw] _ IH]; [done|].
    rewrite !fmap_cons. cbn [foldl foldr].
    by rewrite foldl_add_acc, IH, Hw.
  - done.
Qed.

(** X23. On an answer of the ML service the route keeps, in order, the
    nodes whose course is a row of the table, with the sequence number,
    the weeks and the flag the service gave; nodes of other courses are
    dropped without renumbering, and the total duration is the one the
    service gave, whatever was dropped. *)
Theorem backend_path_keeps_ml_nodes career_goal target_level user_id
    path_data courses body :
  get_learning_path career_goal target_level (Some user_id) true
    (Some path_data) courses = Response body →
  Forall2 (λ node item,
             PathItem.course_id item = node_course_id node ∧
             PathItem.sequence_order item =
               default 0%Z (node_sequence_order node) ∧
             PathItem.estimated_completion_weeks item =
               default 4%Z (node_estimated_completion_weeks node) ∧
             PathItem.prerequisites_met item =
               default true (node_prerequisites_met node))
    (filter (λ node, node_course_id node ∈ CourseDB.id <$> courses)
       (mp_path_nodes path_data))
    (lp_path_nodes body) ∧
  lp_total_duration_weeks body =
    default 0%Z (mp_total_duration_weeks path_data) ∧
  lp_target_nsqf_level body = default "5" (mp_target_nsqf_level path_data) ∧
  lp_target_nsqf_level body ∈ nsqf_values.
Proof.
  unfold get_learning_path. intros H.
  destruct (valid_level target_level); [|done]. simpl in H.
  destruct (path_merge_loop _ _ _) as [out|e] eqn:Hm; [|done].
  cbn [mbind result_bind] in H. unfold NSQFLevel in H.
  destruct (bool_decide _) eqn:Hl; [|done]. apply bool_decide_eq_true in Hl.
  simpl in H. injection H as <-.
  cbn [lp_path_nodes lp_total_duration_weeks lp_target_nsqf_level].
  apply path_merge_loop_Ok in Hm as (new & -> & HF). simpl.
  split_and!; [|done..].
  rewrite (filter_iff_in _
    (λ node, is_Some (course_map_of courses
       (node_course_id <$> mp_path_nodes path_data)
       !! node_course_id node))); cycle 1.
  { intros node Hin. rewrite course_map_of_is_Some. split; [|tauto].
    intros Hid. split; [|done]. by apply list_elem_of_fmap_2. }
  eapply Forall2_impl; [exact HF|].
  intros node item (course & Hc & Hi). simpl in *.
  apply LearningPathNode_Ok in Hi as (-> & _ & _ & -> & -> & ->).
  by apply course_map_of_Some in Hc as [_ ->].
Qed.

(** *** Skill gap *)

(** X24. The skill gap of a learner with a profile is the part of the
    five fixed skills the profile lacks, whatever the target role: the
    role only comes back in the answer. The estimate is four weeks per
    missing skill, so between 0 and 20, and 0 exactly when no skill is
    missing; at most three courses are recommended, all active. *)
Theorem skill_gap_analysis target_role user_id prior_skills courses :
  ∃ body,
    analyze_skill_gap target_role (Some user_id) (Some prior_skills) courses
      = Response body ∧
    sg_target_role body = target_role ∧
    (∀ other body',
       analyze_skill_gap other (Some user_id) (Some prior_skills) courses
         = Response body' →
       sg_skill_gaps body' = sg_skill_gaps body ∧
       sg_recommended_courses body' = sg_recommended_courses body) ∧
    (∀ skill, skill ∈ sg_skill_gaps body ↔
       skill ∈ sg_required_skills body ∧ skill ∉ prior_skills) ∧
    sg_estimated_upskilling_weeks body =
      (4 * Z.of_nat (length (sg_skill_gaps body)))%Z ∧
    (0 ≤ sg_estimated_upskilling_weeks body ≤ 20)%Z ∧
    (sg_estimated_upskilling_weeks body = 0%Z ↔
       ∀ skill, skill ∈ sg_required_skills body → skill ∈ prior_skills) ∧
    (length (sg_recommended_courses body) ≤ 3)%nat ∧
    (∀ i, i ∈ sg_recommended_courses body →
       ∃ course, course ∈ courses ∧ CourseDB.id course = i ∧
         CourseDB.is_active course = true).
Proof.
  eexists. split; [reflexivity|].
  cbn [sg_target_role sg_skill_gaps sg_recommended_courses
       sg_required_skills sg_estimated_upskilling_weeks].
  set (required := ["Python"; "Data Analysis"; "Machine Learning"; "SQL";
                    "Communication"]).
  set (gaps := filter (λ skill, skill ∉ prior_skills) required).
  assert (length gaps ≤ 5)%nat as Hlen.
  { unfold gaps. etrans; [apply length_filter|]. done. }
  split_and!.
  - done.
  - intros other body' H. simpl in H. injection H as <-. done.
  - intros skill. unfold gaps. rewrite list_elem_of_filter. tauto.
  - lia.
  - lia.
  - lia.
  - split.
    + intros H skill Hin. destruct (decide (skill ∈ prior_skills)); [done|].
      assert (skill ∈ gaps) as Hg by (by apply list_elem_of_filter).
      destruct gaps; [by apply elem_of_nil in Hg|simpl in H; lia].
    + intros H. destruct gaps as [|skill rest] eqn:Hg; [done|]. exfalso.
      assert (skill ∈ filter (λ skill, skill ∉ prior_skills) required)
        as [Hn Hr]%list_elem_of_filter.
      { fold gaps. rewrite Hg. apply list_elem_of_here. }
      by apply Hn, H.
  - rewrite length_fmap. unfold active_courses. rewrite length_take. lia.
  - intros i (course & -> & Hin)%list_elem_of_fmap. exists course.
    unfold active_courses in Hin. apply elem_of_take in Hin as (? & Hin & _).
    apply list_elem_of_lookup_2 in Hin.
    apply list_elem_of_filter in Hin as [? ?]. done.
Qed.

(** *** The routes over the engine *)

Lemma get_recommendations_merged top_k include_explanations user_id answer
    courses body :
  (1 ≤ top_k ≤ 50)%Z →
  get_recommendations top_k include_explanations (Some user_id) true
    (Some answer) courses = Response body →
  Forall2 (λ rec item,
             RecItem.course_id item = rec_course_id rec ∧
             RecItem.relevance_score item =
               default 0.5%Q (rec_relevance_score rec) ∧
             RecItem.explanation item =
               (if include_explanations then rec_explanation rec else None))
    (filter (λ rec, rec_course_id rec ∈ CourseDB.id <$> courses)
       (ml_recommendations answer))
    (rr_recommendations body) ∧
  rr_model_version body = default "1.0.0" (ml_model_version answer).
Proof.
  intros Hk. rewrite get_recommendations_valid by done. intros H.
  destruct (merge_loop _ _ _ _) as [out|e] eqn:Hm; [|done].
  simpl in H. injection H as <-. cbn [rr_recommendations rr_model_version].
  apply merge_loop_Ok in Hm as (new & -> & HF). simpl. split; [|done].
  rewrite (filter_iff_in _
    (λ rec, is_Some (course_map_of courses
       (rec_course_id <$> ml_recommendations answer)
       !! rec_course_id rec))); cycle 1.
  { intros rec Hin. rewrite course_map_of_is_Some. split; [|tauto].
    intros Hid. split; [|done]. by apply list_elem_of_fmap_2. }
  eapply Forall2_impl; [exact HF|].
  intros rec item (course & Hc & Hi). simpl in *.
  apply RecommendationItem_Ok in Hi as (-> & -> & -> & _).
  by apply course_map_of_Some in Hc as [_ ->].
Qed.

Lemma get_recommendations_rejects top_k include_explanations user_id answer
    courses rec score :
  (1 ≤ top_k ≤ 50)%Z →
  rec ∈ ml_recommendations answer →
  rec_relevance_score rec = Some score →
  ¬ ((0 <= score)%Q ∧ (score <= 1)%Q) →
  rec_course_id rec ∈ CourseDB.id <$> courses →
  get_recommendations top_k include_explanations (Some user_id) true
    (Some answer) courses = Unhandled ValueError.
Proof.
  intros Hk Hrec Hscore Hout Hin. rewrite get_recommendations_valid by done.
  destruct (merge_loop _ _ _ _) as [out|e] eqn:Hm; simpl.
  - exfalso. apply merge_loop_Ok in Hm as (new & _ & HF).
    assert (rec ∈ filter
              (λ rec, is_Some (course_map_of courses
                 (rec_course_id <$> ml_recommendations answer)
                 !! rec_course_id rec)) (ml_recommendations answer)) as Hf.
    { apply list_elem_of_filter. split; [|done].
      apply course_map_of_is_Some. split; [|done].
      by apply list_elem_of_fmap_2. }
    apply list_elem_of_lookup in Hf as [n Hn].
    destruct (Forall2_lookup_l _ _ _ _ _ HF Hn)
      as (item & _ & course & _ & Hi).
    rewrite Hscore in Hi. simpl in Hi.
    apply RecommendationItem_Ok in Hi as (_ & _ & _ & H0 & H1 & _). tauto.
  - by rewrite (merge_loop_Raise _ _ _ _ _ Hm).
Qed.

Lemma fallback_path_loop_returns idx courses acc :
  Forall (λ course, CourseDB.nsqf_level course ∈ nsqf_values) courses →
  ∃ out, fallback_path_loop idx courses acc = Ok out.
Proof.
  intros Hl. revert idx acc.
  induction Hl as [|course rest Hc _ IH]; intros idx acc; simpl; [eauto|].
  unfold LearningPathNode, NSQFLevel. rewrite bool_decide_eq_true_2 by done.
  cbn [mbind result_bind]. apply IH.
Qed.

Lemma path_merge_loop_returns course_map nodes acc :
  (∀ i course, course_map !! i = Some course →
     CourseDB.nsqf_level course ∈ nsqf_values) →
  ∃ out, path_merge_loop course_map nodes acc = Ok out.
Proof.
  intros Hlevel. revert acc.
  induction nodes as [|node rest IH]; intros acc; simpl; [eauto|].
  destruct (course_map !! node_course_id node) as [course|] eqn:Hc; [|done].
  unfold LearningPathNode, NSQFLevel.
  rewrite bool_decide_eq_true_2 by (by eapply Hlevel).
  cbn [mbind result_bind]. apply IH.
Qed.

Section RoutesOverEngine.

Variable encode : string → embedding.
Variable cosine_similarity : embedding → list embedding → result (list Q).
Variable argsort : list Q → list nat.

Lemma recommend_explanation_popped self learner_data top_k ranking item :
  recommend encode cosine_similarity argsort self learner_data top_k false
    = Ok ranking →
  item ∈ recommendations ranking → Item.explanation item = None.
Proof.
  unfold recommend. intros H Hin.
  destruct (content_based_recommendations _ _ _ _ _ _) as [recs|e]; [|done].
  simpl in H. injection H as <-. simpl in Hin.
  by apply list_elem_of_fmap in Hin as (rec & -> & _).
Qed.

(** X25. What the recommendations route serves is the ranking of the
    engine: the items of the engine whose course is a row of the table, in
    the order of the engine, each with the score and the explanation of
    the engine, under the model version of the engine. *)
Theorem route_serves_engine_ranking self learner_data top_k
    include_explanations user_id courses ranking body :
  (1 ≤ top_k ≤ 50)%Z →
  recommend encode cosine_similarity argsort self learner_data top_k
    include_explanations = Ok ranking →
  get_recommendations top_k include_explanations (Some user_id) true
    (ml_answer (recommend encode cosine_similarity argsort self learner_data
                  top_k include_explanations))
    courses = Response body →
  Forall2 (λ item served,
             RecItem.course_id served = Item.course_id item ∧
             RecItem.relevance_score served = Item.relevance_score item ∧
             RecItem.explanation served = Item.explanation item)
    (filter (λ item, Item.course_id item ∈ CourseDB.id <$> courses)
       (recommendations ranking))
    (rr_recommendations body) ∧
  rr_model_version body = "1.0.0".
Proof.
  intros Hk Hr H. rewrite Hr in H. simpl in H.
  apply get_recommendations_merged in H as [HF Hv]; [|done]. simpl in HF, Hv.
  split.
  - rewrite filter_fmap_list, Forall2_fmap_l in HF.
    apply Forall2_same_length_lookup.
    split; [by eapply Forall2_length|].
    intros n item served Hn Hs.
    destruct (Forall2_lookup_lr _ _ _ _ _ _ HF Hn Hs) as (Hi & Hsc & He).
    simpl in Hi, Hsc, He. split_and!; [done|done|].
    rewrite He. destruct include_explanations; [done|]. symmetry.
    eapply recommend_explanation_popped; [exact Hr|].
    apply list_elem_of_lookup_2 in Hn.
    by apply list_elem_of_filter in Hn as [_ ?].
  - rewrite Hv. unfold recommend in Hr.
    destruct (content_based_recommendations _ _ _ _ _ _); [|done].
    simpl in Hr. by injection Hr as <-.
Qed.

(** X26. A negative similarity of the engine, on a course that is a
    row of the table, makes the recommendations route fail with an
    unhandled [ValueError]: the whole request is lost, not the item. *)
Theorem negative_similarity_breaks_route self learner_data top_k
    include_explanations user_id courses ranking item :
  (1 ≤ top_k ≤ 50)%Z →
  recommend encode cosine_similarity argsort self learner_data top_k
    include_explanations = Ok ranking →
  item ∈ recommendations ranking →
  (Item.relevance_score item < 0)%Q →
  Item.course_id item ∈ CourseDB.id <$> courses →
  get_recommendations top_k include_explanations (Some user_id) true
    (ml_answer (recommend encode cosine_similarity argsort self learner_data
                  top_k include_explanations))
    courses = Unhandled ValueError.
Proof.
  intros Hk Hr Hin Hneg Hid. rewrite Hr. simpl.
  eapply (get_recommendations_rejects _ _ _ _ _
    {| rec_course_id := Item.course_id item;
       rec_relevance_score := Some (Item.relevance_score item);
       rec_explanation := Item.explanation item |}); [done| |done| |done].
  - simpl. apply list_elem_of_fmap. by exists item.
  - intros [H0 _]. by apply Qlt_not_le in Hneg.
Qed.

End RoutesOverEngine.

Section PathRoute.

Variable int : string → result Z.

Lemma generate_learning_path_target self learner_data career_goal
    target_level path :
  generate_learning_path int self learner_data career_goal target_level
    = Ok path →
  target_nsqf_level path = target_or_5 target_level.
Proof.
  unfold generate_learning_path. intros H.
  destruct (courses_df self) as [df|]; [|by simplify_eq].
  destruct (select_level _ _ _) as [rows|e]; [|done].
  cbn [mbind result_bind mret result_ret] in H. by injection H as <-.
Qed.

(** X27. The learning-path route answers whenever the levels of the
    table are levels of the enumeration, whether the engine returned a
    path or raised; the target level of the answer is the level asked
    for, or 5 when none was. *)
Theorem learning_path_route_responds self learner_data career_goal
    target_level user_id courses :
  valid_level target_level = true →
  Forall (λ course, CourseDB.nsqf_level course ∈ nsqf_values) courses →
  ∃ body,
    get_learning_path career_goal target_level (Some user_id) true
      (path_answer (generate_learning_path int self learner_data career_goal
                      target_level))
      courses = Response body ∧
    lp_target_nsqf_level body = default "5" target_level.
Proof.
  intros Hv Hlevels. unfold get_learning_path. rewrite Hv. simpl.
  destruct (generate_learning_path _ _ _ _ _) as [path|e] eqn:Hp; simpl.
  - destruct (path_merge_loop_returns
      (course_map_of courses
         (node_course_id <$>
          ((λ node, {| node_course_id := Node.course_id node;
                       node_sequence_order := Some (Node.sequence_order node);
                       node_estimated_completion_weeks :=
                         Some (Node.estimated_completion_weeks node);
                       node_prerequisites_met :=
                         Some (Node.prerequisites_met node) |})
             <$> path_nodes path)))
      ((λ node, {| node_course_id := Node.course_id node;
                   node_sequence_order := Some (Node.sequence_order node);
                   node_estimated_completion_weeks :=
                     Some (Node.estimated_completion_weeks node);
                   node_prerequisites_met :=
                     Some (Node.prerequisites_met node) |})
         <$> path_nodes path) []) as [out Hout].
    { intros i course [Hin _]%course_map_of_Some.
      by eapply Forall_forall in Hlevels. }
    rewrite Hout. cbn [mbind result_bind].
    rewrite (generate_learning_path_target _ _ _ _ _ Hp).
    assert (target_or_5 target_level = default "5" target_level
            ∧ default "5" target_level ∈ nsqf_values) as [-> Hin].
    { destruct target_level as [s|]; simpl.
      - apply bool_decide_eq_true in Hv. split; [|done].
        destruct (truthy_str s) eqn:Hs; [done|].
        unfold truthy_str in Hs. apply negb_false_iff, String.eqb_eq in Hs.
        subst s. exfalso. revert Hv. vm_compute. set_solver.
      - split; [done|]. apply (bool_decide_unpack _). vm_compute. done. }
    unfold NSQFLevel. rewrite bool_decide_eq_true_2 by done. simpl. eauto.
  - destruct (fallback_path_loop_returns 0 (active_courses courses 5) [])
      as [out Hout].
    { unfold active_courses. apply Forall_take.
      apply Forall_forall. intros course [_ Hin]%list_elem_of_filter.
      by eapply Forall_forall in Hlevels. }
    rewrite Hout. simpl. eauto.
Qed.

End PathRoute.

(** ** The properties above on the demo data *)

Lemma ranking_nonpositive_top_k_witness :
  match content_based_recommendations cosine_similarity_ref argsort_stable
          demo_engine demo_vector 0 it_only with
  | Ok recs => recs = []
  | Raise e =>
      ∃ table, course_embeddings demo_engine = Some table ∧
               cosine_similarity_ref demo_vector table = Raise e
  end.
Proof.
  apply (ranking_nonpositive_top_k cosine_similarity_ref argsort_stable
           demo_engine demo_vector 0 it_only).
  lia.
Defined.

Lemma ranking_ignores_inactive_filters_witness :
  content_based_recommendations cosine_similarity_ref argsort_stable
    demo_engine demo_vector 2 (Some (Filters.mk (Some 0%Z) (Some ""))) =
  content_based_recommendations cosine_similarity_ref argsort_stable
    demo_engine demo_vector 2 None.
Proof.
  apply (ranking_ignores_inactive_filters cosine_similarity_ref
           argsort_stable demo_engine demo_vector 2
           (Filters.mk (Some 0%Z) (Some ""))).
  split; right; reflexivity.
Defined.

Lemma ranking_unfiltered_length_witness :
  ∃ recs,
    content_based_recommendations cosine_similarity_ref argsort_stable
      demo_engine demo_vector 3 None = Ok recs ∧
    Z.of_nat (length recs) =
      (3 `min` Z.of_nat (length [first_aid; nursing; python; networks]))%Z.
Proof.
  apply (ranking_unfiltered_length cosine_similarity_ref argsort_stable
           argsort_stable_perm cosine_similarity_ref_shape
           demo_engine demo_vector 3
           [[1; 0]; [1; 0]; [3; 4]; [-1; 0]]%Q
           [first_aid; nursing; python; networks]
           [1; 1; 3 # 5; -1]%Q).
  - reflexivity.
  - reflexivity.
  - reflexivity.
  - vm_compute. reflexivity.
  - lia.
Defined.

Lemma ranking_omits_no_better_course_witness :
  ∃ sel : list nat,
    Forall2 (λ i item,
               ∃ course,
                 [first_aid; nursing; python; networks] !! i = Some course ∧
                 Item.course_id item = Course.id course ∧
                 [1; 1; 3 # 5; -1]%Q !! i = Some (Item.relevance_score item))
      sel demo_it_recommendations ∧
    NoDup sel ∧
    ∀ i j si sj course,
      i ∈ sel → [1; 1; 3 # 5; -1]%Q !! i = Some si →
      j ∉ sel → [1; 1; 3 # 5; -1]%Q !! j = Some sj →
      [first_aid; nursing; python; networks] !! j = Some course →
      excluded it_only course = false →
      (sj <= si)%Q.
Proof.
  apply (ranking_omits_no_better_course cosine_similarity_ref argsort_stable
           argsort_stable_sorted argsort_stable_perm
           demo_engine demo_vector 2 it_only
           [[1; 0]; [1; 0]; [3; 4]; [-1; 0]]%Q
           [first_aid; nursing; python; networks]
           [1; 1; 3 # 5; -1]%Q demo_it_recommendations).
  - reflexivity.
  - reflexivity.
  - vm_compute. reflexivity.
  - vm_compute. reflexivity.
Defined.

Lemma ranking_no_duplicate_course_witness :
  NoDup (Item.course_id <$> demo_all_recommendations).
Proof.
  apply (ranking_no_duplicate_course cosine_similarity_ref argsort_stable
           argsort_stable_sorted argsort_stable_perm
           demo_engine demo_vector 4 None demo_all_recommendations).
  - apply (bool_decide_unpack _). vm_compute. exact I.
  - vm_compute. reflexivity.
Defined.

Lemma relevance_score_is_similarity_witness :
  [1; 1; 3 # 5; -1]%Q !! 2%nat = Some (3 # 5)%Q.
Proof.
  apply (relevance_score_is_similarity cosine_similarity_ref argsort_stable
           demo_engine demo_vector 4 None
           [[1; 0]; [1; 0]; [3; 4]; [-1; 0]]%Q
           [first_aid; nursing; python; networks]
           [1; 1; 3 # 5; -1]%Q demo_all_recommendations
           (Item.mk 3 (3 # 5)%Q
              (Some "Relevant to your career goals. Covers: Python"))
           2%nat python).
  - apply (bool_decide_unpack _). vm_compute. exact I.
  - reflexivity.
  - reflexivity.
  - vm_compute. reflexivity.
  - vm_compute. reflexivity.
  - apply list_elem_of_lookup. by exists 2%nat.
  - reflexivity.
  - reflexivity.
Defined.

Lemma recommend_explanations_witness :
  model_version demo_top2_bare = "1.0.0" ∧
  Forall (λ item, is_Some (Item.explanation item) ↔ false = true)
    (recommendations demo_top2_bare).
Proof.
  apply (recommend_explanations encode_unit cosine_similarity_ref
           argsort_stable demo_engine demo_learner 2 false demo_top2_bare).
  vm_compute. reflexivity.
Defined.

Lemma path_at_most_five_witness :
  length (path_nodes shuffled_path) ≤ 5 ∧
  length (path_nodes shuffled_path) ≤ length (catalog shuffled_engine).
Proof.
  apply (path_at_most_five int_decimal shuffled_engine beginner "Nurse" None
           shuffled_path).
  vm_compute. reflexivity.
Defined.

Lemma path_within_target_level_witness :
  ∃ courses : list Course.t,
    Forall2 (λ node course, Node.course_id node = Course.id course)
      (path_nodes level4_path) courses ∧
    Forall (λ course, course ∈ catalog shuffled_engine ∧
                      (Course.nsqf_level course ≤ 4)%Z) courses.
Proof.
  apply (path_within_target_level int_decimal shuffled_engine beginner
           "Nurse" "4" 4 level4_path).
  - discriminate.
  - vm_compute. reflexivity.
  - vm_compute. reflexivity.
Defined.

Lemma path_is_maximal_witness :
  ∃ picks : list (nat * Course.t),
    path_nodes stuck_path = nodes_of 1 picks.*2 ∧
    (∀ row, row ∈ picks → row ∈ iterrows_from 0 [first_aid; networks]) ∧
    ∀ row, row ∈ iterrows_from 0 [first_aid; networks] →
      row.1 ∉ picks.*1 →
      ¬ (list_to_set (Course.prerequisites row.2) : gset string) ⊆
          acquired (list_to_set (prior_skills beginner)) picks.*2.
Proof.
  apply (path_is_maximal int_decimal stuck_engine beginner "Nurse" None
           [first_aid; networks] (iterrows_from 0 [first_aid; networks])
           stuck_path).
  - reflexivity.
  - reflexivity.
  - vm_compute. reflexivity.
  - vm_compute. lia.
Defined.

Lemma path_of_open_catalog_witness :
  ∃ path,
    generate_learning_path int_decimal open_engine beginner "Nurse" None
      = Ok path ∧
    path_nodes path = nodes_of 1 (take 5 [python; first_aid]).
Proof.
  apply (path_of_open_catalog int_decimal open_engine beginner "Nurse"
           [python; first_aid]).
  - reflexivity.
  - repeat constructor; apply (bool_decide_unpack _); vm_compute; exact I.
Defined.

Lemma incomplete_artifact_degrades_witness :
  courses_df (load_models Unreadable) = None ∧
  content_based_recommendations cosine_similarity_ref argsort_stable
    (load_models Unreadable) demo_vector 2 it_only = Ok [] ∧
  generate_learning_path int_decimal (load_models Unreadable) beginner
    "Nurse" (Some "4") =
    Ok {| path_nodes := []; total_duration_weeks := 0;
          target_nsqf_level := target_or_5 (Some "4") |}.
Proof.
  apply (incomplete_artifact_degrades cosine_similarity_ref argsort_stable
           int_decimal Unreadable demo_vector 2 it_only beginner "Nurse"
           (Some "4")).
  intros (table & df & H). discriminate H.
Defined.

Lemma backend_recommendations_in_ml_order_witness :
  RecItem.course_id <$> rr_recommendations demo_response =
    filter (λ i, i ∈ CourseDB.id <$> demo_courses)
      (rec_course_id <$> ml_recommendations demo_answer) ∧
  rr_model_version demo_response =
    default "1.0.0" (ml_model_version demo_answer) ∧
  Forall (λ item, (0 <= RecItem.relevance_score item)%Q ∧
                  (RecItem.relevance_score item <= 1)%Q ∧
                  (true = false → RecItem.explanation item = None))
    (rr_recommendations demo_response).
Proof.
  apply (backend_recommendations_in_ml_order 10 true 7 demo_courses).
  - lia.
  - vm_compute. reflexivity.
Defined.

Lemma backend_rejects_score_out_of_range_witness :
  get_recommendations 10 true (Some 7%Z) true (Some negative_answer)
    demo_courses = Unhandled ValueError.
Proof.
  apply (backend_rejects_score_out_of_range 10 true 7 demo_courses
           ltac:(lia) negative_answer negative_rec (-1)%Q).
  - apply list_elem_of_here.
  - reflexivity.
  - intros [H _]. vm_compute in H. by apply H.
  - apply (bool_decide_unpack _). vm_compute. exact I.
Defined.

Lemma backend_fallback_recommendations_witness :
  rr_model_version demo_fallback_response = "1.0.0-fallback" ∧
  RecItem.course_id <$> rr_recommendations demo_fallback_response =
    CourseDB.id <$> active_courses demo_courses (Z.to_nat 2) ∧
  (Z.of_nat (length (rr_recommendations demo_fallback_response)) ≤ 2)%Z ∧
  Forall (λ item, RecItem.relevance_score item = 0.75%Q)
    (rr_recommendations demo_fallback_response) ∧
  Forall (λ course, CourseDB.is_active course = true)
    (active_courses demo_courses (Z.to_nat 2)).
Proof.
  apply (backend_fallback_recommendations 2 true 7 demo_courses).
  - lia.
  - vm_compute. reflexivity.
Defined.

Lemma backend_recommendations_respond_witness :
  ∃ body,
    get_recommendations 10 true (Some 7%Z) true (Some demo_answer)
      demo_courses = Response body.
Proof.
  apply (backend_recommendations_respond 10 true 7 demo_answer demo_courses).
  - lia.
  - repeat constructor; apply (bool_decide_unpack _); vm_compute; exact I.
  - repeat constructor; vm_compute; discriminate.
Defined.

Lemma backend_fallback_path_witness :
  PathItem.course_id <$> lp_path_nodes demo_fallback_path =
    CourseDB.id <$> active_courses demo_courses 5 ∧
  (length (lp_path_nodes demo_fallback_path) ≤ 5)%nat ∧
  (∀ n item, lp_path_nodes demo_fallback_path !! n = Some item →
     PathItem.sequence_order item = (Z.of_nat n + 1)%Z ∧
     PathItem.prerequisites_met item = true ∧
     ∃ course, active_courses demo_courses 5 !! n = Some course ∧
       PathItem.estimated_completion_weeks item =
         (CourseDB.duration_hours course `div` 10)%Z) ∧
  lp_total_duration_weeks demo_fallback_path =
    foldr Z.add 0%Z
      ((λ course, CourseDB.duration_hours course `div` 10)%Z
         <$> active_courses demo_courses 5) ∧
  lp_target_nsqf_level demo_fallback_path = default "5" None.
Proof.
  apply (backend_fallback_path "Nurse" None 7 demo_courses).
  vm_compute. reflexivity.
Defined.

Lemma backend_path_keeps_ml_nodes_witness :
  Forall2 (λ node item,
             PathItem.course_id item = node_course_id node ∧
             PathItem.sequence_order item =
               default 0%Z (node_sequence_order node) ∧
             PathItem.estimated_completion_weeks item =
               default 4%Z (node_estimated_completion_weeks node) ∧
             PathItem.prerequisites_met item =
               default true (node_prerequisites_met node))
    (filter (λ node, node_course_id node ∈ CourseDB.id <$> demo_courses)
       (mp_path_nodes demo_path_data))
    (lp_path_nodes demo_path_response) ∧
  lp_total_duration_weeks demo_path_response =
    default 0%Z (mp_total_duration_weeks demo_path_data) ∧
  lp_target_nsqf_level demo_path_response =
    default "5" (mp_target_nsqf_level demo_path_data) ∧
  lp_target_nsqf_level demo_path_response ∈ nsqf_values.
Proof.
  apply (backend_path_keeps_ml_nodes "Nurse" None 7 demo_path_data
           demo_courses).
  vm_compute. reflexivity.
Defined.

Lemma route_serves_engine_ranking_witness :
  Forall2 (λ item served,
             RecItem.course_id served = Item.course_id item ∧
             RecItem.relevance_score served = Item.relevance_score item ∧
             RecItem.explanation served = Item.explanation item)
    (filter (λ item, Item.course_id item ∈ CourseDB.id <$> demo_courses)
       (recommendations demo_top2))
    (rr_recommendations demo_served) ∧
  rr_model_version demo_served = "1.0.0".
Proof.
  apply (route_serves_engine_ranking encode_unit cosine_similarity_ref
           argsort_stable demo_engine demo_learner 2 true 7 demo_courses).
  - lia.
  - vm_compute. reflexivity.
  - vm_compute. reflexivity.
Defined.

Lemma negative_similarity_breaks_route_witness :
  get_recommendations 4 true (Some 7%Z) true
    (ml_answer (recommend encode_unit cosine_similarity_ref argsort_stable
                  demo_engine demo_learner 4 true))
    demo_courses = Unhandled ValueError.
Proof.
  apply (negative_similarity_breaks_route encode_unit cosine_similarity_ref
           argsort_stable demo_engine demo_learner 4 true 7 demo_courses
           demo_top4
           (Item.mk 4 (-1)%Q
              (Some "Relevant to your career goals. Covers: Networking"))).
  - lia.
  - vm_compute. reflexivity.
  - apply list_elem_of_lookup. by exists 3%nat.
  - reflexivity.
  - apply (bool_decide_unpack _). vm_compute. exact I.
Defined.

Lemma learning_path_route_responds_witness :
  ∃ body,
    get_learning_path "Nurse" (Some "4") (Some 7%Z) true
      (path_answer (generate_learning_path int_decimal shuffled_engine
                      beginner "Nurse" (Some "4")))
      demo_courses = Response body ∧
    lp_target_nsqf_level body = default "5" (Some "4").
Proof.
  apply (learning_path_route_responds int_decimal shuffled_engine beginner
           "Nurse" (Some "4") 7 demo_courses).
  - reflexivity.
  - repeat constructor; apply (bool_decide_unpack _); vm_compute; exact I.
Defined.

Lemma ranking_on_created_artifact_witness :
  let self :=
    load_models
      (create_dummy_course_embeddings encode_unit [first_aid; python]) in
  courses_df self = Some [first_aid; python] ∧
  ∃ table,
    course_embeddings self = Some table ∧
    length table = length [first_aid; python] ∧
    match cosine_similarity_ref demo_vector table with
    | Ok _ =>
        ∃ recs,
          content_based_recommendations cosine_similarity_ref argsort_stable
            self demo_vector 1 it_only = Ok recs
    | Raise e =>
        content_based_recommendations cosine_similarity_ref argsort_stable
          self demo_vector 1 it_only = Raise e
    end.
Proof.
  exact (ranking_on_created_artifact encode_unit cosine_similarity_ref
           argsort_stable argsort_stable_perm cosine_similarity_ref_shape
           [first_aid; python] demo_vector 1 it_only).
Defined.
